(** * GRDC-visualization: the aggregation and animation stages

    A shallow embedding of [src/GRDC-visualization.py]: the period
    derivation ([get_data_period]), the two aggregation scans
    ([count_stations], [get_station_locations]) and the frame
    callbacks of [SubplotAnimation].

    Conventions of the embedding.
    - The parsed table is the list of its rows in positional order
      (the order [.iloc] sees).  Only the four columns the program
      reads are kept.
    - [m_start] and [m_end] went through [pd.to_numeric(errors='coerce')]:
      a cell is an integer year or missing (NaN).  A cell is an
      [option Z]; every comparison against a missing cell is [false],
      as it is against NaN.
    - [lat] and [long] are only ever copied, never inspected, so their
      type is a parameter [coord].
    - numpy integers are modelled by [Z]; [count_stations_int] is the
      scan with counters of a fixed width, and it is shown to return
      the same counts for every table such a counter can index.
    - an exception is a value of [exn]; code that can raise returns a
      [result]. *)

From stdpp Require Import base numbers list list_numbers gmap strings pretty.

Local Open Scope Z_scope.

(** ** Exceptions *)

Inductive exn := ValueError | IndexError | KeyError | TypeError.

Inductive result (A : Type) :=
  | Ok (a : A)
  | Raise (e : exn).
Arguments Ok {A} a.
Arguments Raise {A} e.

(** ** The table *)

(** A numeric cell after coercion: [None] is the missing value. *)
Definition cell := option Z.

Record station (coord : Type) := Station {
  lat : coord;
  long : coord;
  m_start : cell;
  m_end : cell;
}.
Arguments Station {coord} lat long m_start m_end.
Arguments lat {coord} s.
Arguments long {coord} s.
Arguments m_start {coord} s.
Arguments m_end {coord} s.

(** [year >= c] and [year <= c] for a numpy integer [year] and a cell [c]. *)
Definition year_ge (year : Z) (c : cell) : bool :=
  match c with Some v => bool_decide (v ≤ year) | None => false end.
Definition year_le (year : Z) (c : cell) : bool :=
  match c with Some v => bool_decide (year ≤ v) | None => false end.

(** ** numpy and pandas primitives *)

(** The values of a column that are present. *)
Definition dropna (col : list cell) : list Z := omap id col.

(** [np.min] of a pandas Series dispatches to [Series.min], which skips
    missing values and returns the missing value when nothing is left. *)
Definition np_min (col : list cell) : cell :=
  match dropna col with
  | [] => None
  | v :: vs => Some (foldl Z.min v vs)
  end.

Definition np_max (col : list cell) : cell :=
  match dropna col with
  | [] => None
  | v :: vs => Some (foldl Z.max v vs)
  end.

(** [np.arange(start, stop).astype(int)]: the integers from [start] up
    to but excluding [stop]; the length cannot be computed from a
    missing bound and numpy raises [ValueError]. *)
Definition np_arange (start stop : cell) : result (list Z) :=
  match start, stop with
  | Some a, Some b => Ok (seqZ a (b - a))
  | _, _ => Raise ValueError
  end.

(** [np.zeros_like(a)] *)
Definition np_zeros_like (a : list Z) : list Z := replicate (length a) 0.

(** [enumerate(l)] *)
Definition enumerate {A} (l : list A) : list (nat * A) := imap pair l.

Section Aggregation.
Context {coord : Type}.
Implicit Types (data : list (station coord)) (period : list Z) (year : Z).

(** ** get_data_period *)

Definition get_data_period data : result (cell * cell * list Z) :=
  let m_start := np_min (m_start <$> data) in
  let m_end := np_max (m_end <$> data) in
  match np_arange m_start m_end with
  | Ok period => Ok (m_start, m_end, period)
  | Raise e => Raise e
  end.

(** ** count_stations *)

(** The test of both scans:
    [year >= data['m_start'].iloc[index_s] and year <= data['m_end'].iloc[index_s]] *)
Definition active year (s : station coord) : bool :=
  year_ge year (m_start s) && year_le year (m_end s).

(** [for index_s, station in enumerate(data.index)] with
    [.iloc[index_s]] visits the rows in order, so the inner loop is a
    fold over the rows.  [index_p] comes from [enumerate(period)] and
    [stations] has the length of [period], so [stations[index_p] += 1]
    is always in range (the store-level [Store.count_stations] below
    keeps the bounds check and is shown never to raise). *)
Definition count_stations data period : list Z :=
  foldl (λ stations '(index_p, year),
           foldl (λ stations s,
                    if active year s
                    then alter (λ c, c + 1) index_p stations
                    else stations)
                 stations data)
        (np_zeros_like period) (enumerate period).

(** ** get_station_locations *)

(** [np.array(ls)] for a list of pairs: the empty list gives the
    one-dimensional array of shape (0,), a non-empty one an array of
    shape (n, 2). *)
Inductive ndarray :=
  | Nd1 (* shape (0,) *)
  | Nd2 (rows : list (coord * coord)) (* shape (n, 2) *).

Definition np_array (ls : list (coord * coord)) : ndarray :=
  match ls with
  | [] => Nd1
  | _ => Nd2 ls
  end.

(** [len(a)] *)
Definition nd_len (a : ndarray) : nat :=
  match a with Nd1 => 0%nat | Nd2 rows => length rows end.

(** [a[:, 0]] and [a[:, 1]]: two indices into a one-dimensional array
    raise [IndexError]. *)
Definition nd_col0 (a : ndarray) : result (list coord) :=
  match a with Nd1 => Raise IndexError | Nd2 rows => Ok (fst <$> rows) end.
Definition nd_col1 (a : ndarray) : result (list coord) :=
  match a with Nd1 => Raise IndexError | Nd2 rows => Ok (snd <$> rows) end.

(** The inner loop of [get_station_locations]: the list [ls] it builds
    for one year. *)
Definition collect year data : list (coord * coord) :=
  foldl (λ ls s,
           if active year s
           then let lat := lat s in
                let lon := long s in
                let coors := (lon, lat) in
                ls ++ [coors]
           else ls)
        [] data.

Definition get_station_locations data period : gmap Z ndarray :=
  foldl (λ locations year, <[year := np_array (collect year data)]> locations)
        ∅ period.

End Aggregation.

Arguments ndarray coord : clear implicits.

(** ** Python indexing of one-dimensional arrays *)

(** [a[:i]]: a negative [i] counts from the end; slicing never raises. *)
Definition slice_to {A} (i : Z) (a : list A) : list A :=
  if bool_decide (i < 0)
  then take (Z.to_nat (Z.of_nat (length a) + i)) a
  else take (Z.to_nat i) a.

(** [a[i]]: a negative [i] counts from the end; out of range raises
    [IndexError]. *)
Definition getitem {A} (a : list A) (i : Z) : result A :=
  let n := Z.of_nat (length a) in
  let j := if bool_decide (i < 0) then n + i else i in
  if bool_decide (0 ≤ j < n)
  then match a !! Z.to_nat j with
       | Some x => Ok x
       | None => Raise IndexError
       end
  else Raise IndexError.

(** [d[k]] for a dict. *)
Definition dict_getitem {V} (d : gmap Z V) (k : Z) : result V :=
  match d !! k with
  | Some v => Ok v
  | None => Raise KeyError
  end.

(** ** Stateful code: a state and exception monad

    A computation takes the state and returns the state it leaves
    behind together with a value or the exception that stopped it, so
    the writes made before a [Raise] stay visible. *)

Definition M (S A : Type) : Type := S → result A * S.

Global Instance M_ret {S} : MRet (M S) := λ A a s, (Ok a, s).
Global Instance M_bind {S} : MBind (M S) := λ A B k m s,
  match m s with
  | (Ok a, s') => k a s'
  | (Raise e, s') => (Raise e, s')
  end.

Definition gets {S A} (f : S → A) : M S A := λ s, (Ok (f s), s).
Definition modify {S} (f : S → S) : M S unit := λ s, (Ok (), f s).
Definition lift {S A} (r : result A) : M S A := λ s, (r, s).

(** [for x in xs: body x] *)
Fixpoint for_each {S A} (xs : list A) (body : A → M S unit) : M S unit :=
  match xs with
  | [] => mret ()
  | x :: xs => body x ;; for_each xs body
  end.

(** ** SubplotAnimation *)

Module SubplotAnimation.

(** The three drawables a frame redraws. *)
Inductive artist := Time | Space | Text.

(** [Line2D]: the data a line artist holds. *)
Record Line2D (A : Type) := Line { xdata : list A; ydata : list A }.
Arguments Line {A} xdata ydata.
Arguments xdata {A} l.
Arguments ydata {A} l.

(** The layers [Basemap] draws at construction. *)
Inductive layer := Continents | Rivers | Countries.

(** What [__init__] fixes once and for all: axes labels and limits and
    the map background. *)
Record canvas := Canvas {
  ax1_xlabel : string;
  ax1_ylabel : string;
  ax1_xlim : cell * cell;
  ax1_ylim : Z * Z;
  ax2_xlabel : string;
  basemap : list layer;
}.

Section Animation.
Context {coord : Type}.

Record t := Self {
  fig : canvas;
  stations : list Z;
  locations : gmap Z (ndarray coord);
  period : list Z;
  time : Line2D Z;
  space : Line2D coord;
  text : string;
  _drawn_artists : list artist;
}.

Definition time_set_data (x y : list Z) (self : t) : t :=
  Self (fig self) (stations self) (locations self) (period self)
       (Line x y) (space self) (text self) (_drawn_artists self).
Definition space_set_data (x y : list coord) (self : t) : t :=
  Self (fig self) (stations self) (locations self) (period self)
       (time self) (Line x y) (text self) (_drawn_artists self).
Definition text_set_text (s : string) (self : t) : t :=
  Self (fig self) (stations self) (locations self) (period self)
       (time self) (space self) s (_drawn_artists self).
Definition set_drawn_artists (l : list artist) (self : t) : t :=
  Self (fig self) (stations self) (locations self) (period self)
       (time self) (space self) (text self) l.

(** [__init__]: [m_start] and [m_end] are the module-level globals the
    constructor reads for the x limits. *)
Definition __init__ (m_start m_end : cell)
    (stations : list Z) (locations : gmap Z (ndarray coord))
    (period : list Z) : t :=
  Self (Canvas "Time (year)" "GRDC stations" (m_start, m_end) (0, 5000)
               "GRDC stations" [Continents; Rivers; Countries])
       stations locations period
       (Line [] []) (Line [] []) "" [].

Definition _draw_frame (framedata : Z) : M t unit :=
  let i := framedata in
  p ← gets period;
  st ← gets stations;
  modify (time_set_data (slice_to i p) (slice_to i st));;
  p ← gets period;
  year ← lift (getitem p i);
  d ← gets locations;
  a ← lift (dict_getitem d year);
  lons ← lift (nd_col0 a);
  d ← gets locations;
  a ← lift (dict_getitem d year);
  lats ← lift (nd_col1 a);
  modify (space_set_data lons lats);;
  modify (text_set_text (pretty year));;
  modify (set_drawn_artists [Time; Space; Text]).

Definition new_frame_seq (self : t) : list Z :=
  seqZ 0 (Z.of_nat (length (period self))).

Definition _init_draw : M t unit :=
  modify (time_set_data [] []);;
  modify (space_set_data [] []);;
  modify (text_set_text "").

(** The order in which matplotlib's animation driver calls the
    callbacks: the initial draw, then one call of [_draw_frame] per
    element of the frame sequence; an exception ends it. *)
Definition play : M t unit :=
  _init_draw;;
  frames ← gets new_frame_seq;
  for_each frames _draw_frame.

End Animation.
Arguments t coord : clear implicits.

End SubplotAnimation.

(** ** Fixed-width counters

    [np.zeros_like(period)] has the integer type of [period], whose
    width depends on the platform.  [count_stations_int w] is
    [count_stations] with the increment wrapping in [w]-bit two's
    complement. *)

Definition wrap (w : Z) (z : Z) : Z :=
  (z + 2 ^ (w - 1)) `mod` 2 ^ w - 2 ^ (w - 1).

Definition count_stations_int {coord} (w : Z)
    (data : list (station coord)) (period : list Z) : list Z :=
  foldl (λ stations '(index_p, year),
           foldl (λ stations s,
                    if active year s
                    then alter (λ c, wrap w (c + 1)) index_p stations
                    else stations)
                 stations data)
        (np_zeros_like period) (enumerate period).

(** ** The aggregation stages over a store

    To speak about what a call leaves of its arguments, the arguments
    have to be objects that a call could change.  Here the table and the
    arrays live in a store and the two scans are written against
    references, with every read and write of the source spelled out:
    [np.zeros_like] and [np.array] allocate, [stations[index_p] += 1],
    [ls.append] and [locations[year] = ...] write in place, and the loops
    read [period] and the table through their references at each
    iteration. *)

Module Store.

(** References. *)
Abbreviation loc := positive.

Section Store.
Context {coord : Type}.

Inductive obj :=
  | DataFrame (rows : list (station coord))
  | IntArray (a : list Z)
  | PairArray (a : ndarray coord)
  | PyList (ls : list (coord * coord))
  | PyDict (d : gmap Z loc).

(** The store: the objects by reference. *)
Local Abbreviation heap := (gmap loc obj).

(** A new object gets a reference that is not in use. *)
Definition alloc (o : obj) : M heap loc :=
  λ h, let l := fresh (dom h) in (Ok l, <[l := o]> h).

Definition load (l : loc) : M heap obj :=
  λ h, match h !! l with
       | Some o => (Ok o, h)
       | None => (Raise TypeError, h)
       end.

Definition store (l : loc) (o : obj) : M heap unit :=
  λ h, (Ok (), <[l := o]> h).

Definition raise {A} (e : exn) : M heap A := λ h, (Raise e, h).

Definition load_frame (l : loc) : M heap (list (station coord)) :=
  o ← load l;
  match o with DataFrame rows => mret rows | _ => raise TypeError end.

Definition load_ints (l : loc) : M heap (list Z) :=
  o ← load l;
  match o with IntArray a => mret a | _ => raise TypeError end.

Definition load_list (l : loc) : M heap (list (coord * coord)) :=
  o ← load l;
  match o with PyList ls => mret ls | _ => raise TypeError end.

Definition load_dict (l : loc) : M heap (gmap Z loc) :=
  o ← load l;
  match o with PyDict d => mret d | _ => raise TypeError end.

(** [a.size] and [len(data.index)] *)
Definition size (a : loc) : M heap nat :=
  xs ← load_ints a; mret (length xs).
Definition len_index (data : loc) : M heap nat :=
  rows ← load_frame data; mret (length rows).

(** [a[i]] for a position [i] produced by iterating over [a]. *)
Definition item (a : loc) (i : nat) : M heap Z :=
  xs ← load_ints a;
  match xs !! i with Some x => mret x | None => raise IndexError end.

(** [data[column].iloc[i]] *)
Definition iloc {A} (data : loc) (column : station coord → A) (i : nat)
    : M heap A :=
  rows ← load_frame data;
  match rows !! i with Some s => mret (column s) | None => raise IndexError end.

(** [a[i] += 1] *)
Definition incr_item (a : loc) (i : nat) : M heap unit :=
  xs ← load_ints a;
  match xs !! i with
  | Some c => store a (IntArray (<[i := c + 1]> xs))
  | None => raise IndexError
  end.

(** [np.zeros_like(a)] *)
Definition zeros_like (a : loc) : M heap loc :=
  xs ← load_ints a; alloc (IntArray (np_zeros_like xs)).

(** [ls.append(x)] *)
Definition append (ls : loc) (x : coord * coord) : M heap unit :=
  xs ← load_list ls; store ls (PyList (xs ++ [x])).

(** [np.array(ls)] *)
Definition array (ls : loc) : M heap loc :=
  xs ← load_list ls; alloc (PairArray (np_array xs)).

(** [d[k] = v] *)
Definition setitem (d : loc) (k : Z) (v : loc) : M heap unit :=
  m ← load_dict d; store d (PyDict (<[k := v]> m)).

Definition count_stations (data period : loc) : M heap loc :=
  stations ← zeros_like period;
  n ← size period;
  for_each (seq 0 n) (λ index_p,
    year ← item period index_p;
    m ← len_index data;
    for_each (seq 0 m) (λ index_s,
      lo ← iloc data m_start index_s;
      if year_ge year lo then
        hi ← iloc data m_end index_s;
        if year_le year hi then incr_item stations index_p else mret ()
      else mret ()));;
  mret stations.

Definition get_station_locations (data period : loc) : M heap loc :=
  locations ← alloc (PyDict ∅);
  n ← size period;
  for_each (seq 0 n) (λ index_p,
    year ← item period index_p;
    ls ← alloc (PyList []);
    m ← len_index data;
    for_each (seq 0 m) (λ index_s,
      lo ← iloc data m_start index_s;
      if year_ge year lo then
        hi ← iloc data m_end index_s;
        if year_le year hi then
          lat ← iloc data lat index_s;
          lon ← iloc data long index_s;
          let coors := (lon, lat) in
          append ls coors
        else mret ()
      else mret ());;
    a ← array ls;
    setitem locations year a);;
  mret locations.

(** The two calls of [__main__], one after the other on the same table
    and period:
    [stations = count_stations(data, period)]
    [locations = get_station_locations(data, period)] *)
Definition aggregate (data period : loc) : M heap (loc * loc) :=
  stations ← count_stations data period;
  locations ← get_station_locations data period;
  mret (stations, locations).

(** The dict at [l] with each value replaced by the array it refers to. *)
Definition deref_dict (h : heap) (l : loc) : option (gmap Z (ndarray coord)) :=
  match h !! l with
  | Some (PyDict d) =>
      Some (omap (λ r, match h !! r with
                       | Some (PairArray a) => Some a
                       | _ => None
                       end) d)
  | _ => None
  end.

End Store.
Arguments obj coord : clear implicits.
Abbreviation heap coord := (gmap loc (obj coord)).

End Store.


(** ** The script

    [__main__] from the parsed table on: the period, the two scans, the
    construction of the animation and [ani.save], which plays it.  An
    exception that leaves a stage ends the script; a run that comes to
    its end returns the animation as the last frame left it. *)
Definition main {coord} (data : list (station coord))
    : result (SubplotAnimation.t coord) :=
  match get_data_period data with
  | Raise e => Raise e
  | Ok (m_start, m_end, period) =>
      let stations := count_stations data period in
      let locations := get_station_locations data period in
      let ani :=
        SubplotAnimation.__init__ m_start m_end stations locations period in
      match SubplotAnimation.play ani with
      | (Ok _, ani) => Ok ani
      | (Raise e, _) => Raise e
      end
  end.

(** ** The specification's vocabulary *)

Section Spec.
Context {coord : Type}.

(** "Active means the year falls within that station's [start, end]
    inclusive range." *)
Definition in_range (year : Z) (s : station coord) : Prop :=
  ∃ a b, m_start s = Some a ∧ m_end s = Some b ∧ a ≤ year ≤ b.

Global Instance in_range_dec year s : Decision (in_range year s).
Proof.
  refine (match m_start s as x, m_end s as y
                return m_start s = x → m_end s = y → _ with
          | Some a, Some b => λ Ha Hb,
              cast_if (decide (a ≤ year ≤ b))
          | _, _ => λ Ha Hb, right _
          end eq_refl eq_refl);
    unfold in_range; [ eauto | intros (a' & b' & ? & ? & ?).. ];
    congruence || (simplify_eq; lia).
Defined.

(** The stations of the table that are active in [year], in table order. *)
Definition active_stations (year : Z) (data : list (station coord))
    : list (station coord) :=
  filter (in_range year) data.

(** [lo] is the least (resp. [hi] the greatest) value present in a column. *)
Definition is_least (lo : Z) (col : list cell) : Prop :=
  Some lo ∈ col ∧ ∀ v, Some v ∈ col → lo ≤ v.
Definition is_greatest (hi : Z) (col : list cell) : Prop :=
  Some hi ∈ col ∧ ∀ v, Some v ∈ col → v ≤ hi.

End Spec.

(** What the animation shows once the frames of the years [pre], the
    first years of its period, have been drawn one after the other:
    nothing new when [pre] is empty; otherwise the label and the point
    cloud of the last year of [pre], and the line through the years
    before it. *)
Definition after_frames {coord} (data : list (station coord))
    (self : SubplotAnimation.t coord) (pre : list Z)
    : SubplotAnimation.t coord :=
  match last pre with
  | None => self
  | Some year =>
      SubplotAnimation.Self
        (SubplotAnimation.fig self)
        (SubplotAnimation.stations self)
        (SubplotAnimation.locations self)
        (SubplotAnimation.period self)
        (SubplotAnimation.Line
           (take (length pre - 1) (SubplotAnimation.period self))
           (take (length pre - 1) (SubplotAnimation.stations self)))
        (SubplotAnimation.Line
           (long <$> active_stations year data)
           (lat <$> active_stations year data))
        (pretty year)
        [SubplotAnimation.Time; SubplotAnimation.Space; SubplotAnimation.Text]
  end.

(** ** Tables used in the scenarios *)

(** One station with range [2000, 2005]. *)
Definition one_station {coord} (lat1 lon1 : coord) : list (station coord) :=
  [Station lat1 lon1 (Some 2000) (Some 2005)].

(** Two stations with ranges [2000, 2005] and [2003, 2010]. *)
Definition two_stations {coord} (lat1 lon1 lat2 lon2 : coord)
    : list (station coord) :=
  [Station lat1 lon1 (Some 2000) (Some 2005);
   Station lat2 lon2 (Some 2003) (Some 2010)].

(** Two stations with ranges [2000, 2001] and [2004, 2006]: nothing is
    measured in 2002 and 2003. *)
Definition gap_stations {coord} (lat1 lon1 lat2 lon2 : coord)
    : list (station coord) :=
  [Station lat1 lon1 (Some 2000) (Some 2001);
   Station lat2 lon2 (Some 2004) (Some 2006)].

(** A store with the two-station table behind reference 1 and its
    period behind reference 2. *)
Definition two_stations_store : Store.heap Z :=
  <[1%positive := Store.DataFrame (two_stations 50 10 48 2)]>
    (<[2%positive := Store.IntArray (seqZ 2000 10)]> ∅).

(** * Properties *)

Section AggregationFacts.
Context {coord : Type}.
Implicit Types (data : list (station coord)) (period : list Z) (year : Z).
Implicit Types (s : station coord).

Lemma active_in_range year s : active year s = true ↔ in_range year s.
Proof.
  unfold active, in_range, year_ge, year_le.
  destruct (m_start s) as [a|], (m_end s) as [b|]; simpl;
    rewrite ?andb_true_iff, ?bool_decide_eq_true; split;
    try (intros (a' & b' & ? & ? & ?); simplify_eq; try lia);
    try (intros [? ?]; eauto 10); try done.
Qed.

Lemma active_stations_cons year s data :
  active_stations year (s :: data) =
    if active year s then s :: active_stations year data
    else active_stations year data.
Proof.
  unfold active_stations. rewrite filter_cons.
  destruct (active year s) eqn:E.
  - rewrite decide_True; [done | by apply active_in_range].
  - rewrite decide_False; [done |].
    intros H%active_in_range. congruence.
Qed.

(** The inner loop of [count_stations] adds to position [index_p] the
    number of active stations and touches nothing else. *)
Lemma count_inner year (index_p : nat) data (stations : list Z) :
  foldl (λ stations s,
           if active year s
           then alter (λ c, c + 1) index_p stations
           else stations) stations data
  = alter (λ c, c + Z.of_nat (length (active_stations year data)))
          index_p stations.
Proof.
  revert stations. induction data as [|s data IH]; intros stations; simpl.
  - symmetry. apply list_alter_id. intros c. lia.
  - rewrite IH, active_stations_cons. destruct (active year s); [|done].
    rewrite list_alter_alter_eq. apply list_alter_ext; [|done].
    intros c _. simpl. lia.
Qed.

(** The outer loop, for any loop body that turns the zero at its own
    position into [f year] and leaves the rest of the array alone. *)
Lemma scan_outer (body : Z → nat → list Z → list Z) (f : Z → Z) period :
  (∀ year pre post, body year (length pre) (pre ++ 0 :: post) = pre ++ f year :: post) →
  ∀ (k : nat) (done_ : list Z),
  length done_ = k →
  foldl (λ stations '(index_p, year), body year index_p stations)
        (done_ ++ replicate (length period) 0)
        (imap (λ i, pair (k + i)%nat) period)
  = done_ ++ (f <$> period).
Proof.
  intros Hbody. induction period as [|year period IH]; intros k done_ Hk.
  - done.
  - rewrite imap_cons. simpl foldl.
    rewrite Nat.add_0_r, <-Hk, Hbody.
    rewrite (imap_ext _ (λ i, pair (S k + i)%nat)).
    2:{ intros i x _. simpl. f_equal. lia. }
    rewrite (cons_middle _ done_), app_assoc.
    rewrite IH by (rewrite length_app; simpl; lia).
    by rewrite <-app_assoc.
Qed.

(** [count_stations] is the map, over the period, of the number of
    active stations. *)
Lemma count_stations_spec data period :
  count_stations data period
  = (λ year, Z.of_nat (length (active_stations year data))) <$> period.
Proof.
  unfold count_stations, np_zeros_like, enumerate.
  apply (scan_outer
           (λ year index_p stations,
              foldl (λ stations s,
                       if active year s
                       then alter (λ c, c + 1) index_p stations
                       else stations) stations data)
           _ period) with (k := 0%nat) (done_ := []); [|done].
  intros year pre post. rewrite count_inner.
  replace (length pre) with (length pre + 0)%nat by lia.
  by rewrite alter_app_r.
Qed.

Lemma collect_spec year data :
  collect year data = (λ s, (long s, lat s)) <$> active_stations year data.
Proof.
  unfold collect.
  enough (∀ ls, foldl (λ ls s,
                         if active year s
                         then let lat := lat s in
                              let lon := long s in
                              let coors := (lon, lat) in
                              ls ++ [coors]
                         else ls) ls data
                = ls ++ ((λ s, (long s, lat s)) <$> active_stations year data))
    as H by apply (H []).
  induction data as [|s data IH]; intros ls; simpl.
  - by rewrite app_nil_r.
  - rewrite IH, active_stations_cons. destruct (active year s); [|done].
    by rewrite <-app_assoc.
Qed.

Lemma nd_len_np_array (ls : list (coord * coord)) :
  nd_len (np_array ls) = length ls.
Proof. by destruct ls. Qed.

(** The dict built by [get_station_locations] has exactly the years of
    the period as keys; a year that occurs twice is overwritten with
    the same array. *)
Lemma get_station_locations_lookup data period year :
  get_station_locations data period !! year
  = if decide (year ∈ period)
    then Some (np_array (collect year data))
    else None.
Proof.
  unfold get_station_locations.
  induction period as [|y period IH] using rev_ind.
  - by rewrite decide_False by apply not_elem_of_nil.
  - rewrite foldl_app. simpl. destruct (decide (y = year)) as [->|Hne].
    + rewrite lookup_insert_eq, decide_True; [done|].
      apply elem_of_app. right. apply list_elem_of_singleton. done.
    + rewrite lookup_insert_ne, IH by done.
      destruct (decide (year ∈ period)) as [Hin|Hin].
      * rewrite decide_True; [done|]. apply elem_of_app; auto.
      * rewrite decide_False; [done|].
        rewrite elem_of_app, list_elem_of_singleton. intros [?|?]; congruence.
Qed.

Lemma count_stations_lookup data period (i : nat) :
  count_stations data period !! i
  = (λ year, Z.of_nat (length (active_stations year data))) <$> period !! i.
Proof. by rewrite count_stations_spec, list_lookup_fmap. Qed.

(** C1: for every year of the period, the count at the year's position
    equals the length of the coordinate array that
    [get_station_locations] stores for that year. *)
Theorem count_agrees_with_locations data period (i : nat) year :
  period !! i = Some year →
  ∃ a, get_station_locations data period !! year = Some a ∧
       count_stations data period !! i = Some (Z.of_nat (nd_len a)).
Proof.
  intros Hi. exists (np_array (collect year data)). split.
  - rewrite get_station_locations_lookup, decide_True; [done|].
    by eapply list_elem_of_lookup_2.
  - rewrite count_stations_lookup, Hi. simpl.
    by rewrite nd_len_np_array, collect_spec, length_fmap.
Qed.

(** C2: [count_stations] returns one count per year, at the year's
    position in the period, and that count is the number of stations
    of the table whose inclusive range [m_start <= Y <= m_end] holds
    the year; so every station that is counted for a year has the year
    in its range. *)
Theorem count_stations_aligned_inclusive data period :
  length (count_stations data period) = length period ∧
  (∀ i : nat,
     count_stations data period !! i
     = (λ year, Z.of_nat (length (active_stations year data))) <$> period !! i) ∧
  (∀ year s,
     s ∈ active_stations year data ↔
     s ∈ data ∧ ∃ a b, m_start s = Some a ∧ m_end s = Some b ∧ a ≤ year ≤ b).
Proof.
  split; [|split].
  - by rewrite count_stations_spec, length_fmap.
  - apply count_stations_lookup.
  - intros year s. unfold active_stations. rewrite list_elem_of_filter.
    unfold in_range. tauto.
Qed.

(** C7: every count is at least zero and at most the number of rows of
    the table. *)
Theorem count_stations_bounds data period :
  Forall (λ c, 0 ≤ c ≤ Z.of_nat (length data)) (count_stations data period).
Proof.
  rewrite count_stations_spec. apply Forall_fmap, Forall_forall.
  intros year _. simpl. unfold active_stations.
  pose proof (length_filter (in_range year) data). lia.
Qed.

(** ** Fixed-width counters never wrap *)

Lemma wrap_small (w z : Z) :
  0 < w → - 2 ^ (w - 1) ≤ z < 2 ^ (w - 1) → wrap w z = z.
Proof.
  intros Hw Hz. unfold wrap.
  replace (2 ^ w) with (2 * 2 ^ (w - 1)).
  - rewrite Z.mod_small; lia.
  - rewrite <-Z.pow_succ_r by lia. f_equal. lia.
Qed.

Lemma count_inner_int (w : Z) year (index_p : nat) data (stations : list Z) (c0 : Z) :
  0 < w →
  stations !! index_p = Some c0 →
  0 ≤ c0 →
  c0 + Z.of_nat (length data) < 2 ^ (w - 1) →
  foldl (λ stations s,
           if active year s
           then alter (λ c, wrap w (c + 1)) index_p stations
           else stations) stations data
  = foldl (λ stations s,
             if active year s
             then alter (λ c, c + 1) index_p stations
             else stations) stations data.
Proof.
  intros Hw. revert stations c0.
  induction data as [|s data IH]; intros stations c0 Hc0 Hpos Hlt; [done|].
  simpl in *. destruct (active year s).
  - rewrite (list_alter_ext _ (λ c, c + 1) stations stations index_p); [|
      intros c Hc; simplify_eq; apply wrap_small; lia | done ].
    apply (IH _ (c0 + 1)); [|lia..].
    by rewrite list_lookup_alter_eq, Hc0.
  - apply (IH _ c0); [done|lia..].
Qed.

(** X7: a counter of [w] bits holds the same values as the unbounded one for
    every table of fewer than [2 ^ (w - 1)] rows. *)
Lemma count_stations_int_agrees (w : Z) data period :
  0 < w →
  Z.of_nat (length data) < 2 ^ (w - 1) →
  count_stations_int w data period = count_stations data period.
Proof.
  intros Hw Hlen. rewrite count_stations_spec.
  unfold count_stations_int, np_zeros_like, enumerate.
  apply (scan_outer
           (λ year index_p stations,
              foldl (λ stations s,
                       if active year s
                       then alter (λ c, wrap w (c + 1)) index_p stations
                       else stations) stations data)
           _ period) with (k := 0%nat) (done_ := []); [|done].
  intros year pre post.
  rewrite (count_inner_int w _ _ _ _ 0), count_inner; [|done| |done|lia].
  - replace (length pre) with (length pre + 0)%nat at 1 by lia.
    by rewrite alter_app_r.
  - by rewrite lookup_app_r, Nat.sub_diag.
Qed.

End AggregationFacts.

(** ** The period *)

Section PeriodFacts.

Lemma elem_of_dropna (col : list cell) (v : Z) : v ∈ dropna col ↔ Some v ∈ col.
Proof.
  unfold dropna. rewrite list_elem_of_omap. split.
  - intros (x & Hx & Hv). simpl in Hv. by subst x.
  - intros H. by exists (Some v).
Qed.

Lemma foldl_min_least (v : Z) (vs : list Z) :
  foldl Z.min v vs ∈ v :: vs ∧ ∀ x, x ∈ v :: vs → foldl Z.min v vs ≤ x.
Proof.
  revert v. induction vs as [|w vs IH]; intros v; simpl.
  - split; [by left|]. intros x ->%list_elem_of_singleton. lia.
  - destruct (IH (Z.min v w)) as [Hin Hle]. split.
    + apply elem_of_cons in Hin as [Heq|Hin].
      * rewrite Heq. destruct (Z.min_spec v w) as [[_ ->]|[_ ->]].
        -- by left.
        -- right. by left.
      * by do 2 right.
    + intros x Hx. rewrite !elem_of_cons in Hx.
      destruct Hx as [->|[->|Hx]].
      * etrans; [apply Hle; by left|]. lia.
      * etrans; [apply Hle; by left|]. lia.
      * apply Hle. by right.
Qed.

Lemma foldl_max_greatest (v : Z) (vs : list Z) :
  foldl Z.max v vs ∈ v :: vs ∧ ∀ x, x ∈ v :: vs → x ≤ foldl Z.max v vs.
Proof.
  revert v. induction vs as [|w vs IH]; intros v; simpl.
  - split; [by left|]. intros x ->%list_elem_of_singleton. lia.
  - destruct (IH (Z.max v w)) as [Hin Hle]. split.
    + apply elem_of_cons in Hin as [Heq|Hin].
      * rewrite Heq. destruct (Z.max_spec v w) as [[_ ->]|[_ ->]].
        -- right. by left.
        -- by left.
      * by do 2 right.
    + intros x Hx. rewrite !elem_of_cons in Hx.
      destruct Hx as [->|[->|Hx]].
      * etrans; [|apply Hle; by left]. lia.
      * etrans; [|apply Hle; by left]. lia.
      * apply Hle. by right.
Qed.

(** [np_min] returns the least value present, and nothing else does. *)
Lemma np_min_least (col : list cell) (lo : Z) :
  np_min col = Some lo ↔ is_least lo col.
Proof.
  unfold np_min, is_least. setoid_rewrite <-elem_of_dropna.
  destruct (dropna col) as [|v vs].
  - split; [done|]. intros [H%elem_of_nil _]. done.
  - destruct (foldl_min_least v vs) as [Hin Hle]. split.
    + intros [= <-]. done.
    + intros [Hin' Hle']. f_equal.
      apply Z.le_antisymm; [by apply Hle|by apply Hle'].
Qed.

Lemma np_max_greatest (col : list cell) (hi : Z) :
  np_max col = Some hi ↔ is_greatest hi col.
Proof.
  unfold np_max, is_greatest. setoid_rewrite <-elem_of_dropna.
  destruct (dropna col) as [|v vs].
  - split; [done|]. intros [H%elem_of_nil _]. done.
  - destruct (foldl_max_greatest v vs) as [Hin Hle]. split.
    + intros [= <-]. done.
    + intros [Hin' Hle']. f_equal.
      apply Z.le_antisymm; [by apply Hle'|by apply Hle].
Qed.

Context {coord : Type}.
Implicit Types (data : list (station coord)).

(** Whatever the bounds, the period stops one year short of [m_end]. *)
Lemma get_data_period_Ok data lo hi period :
  get_data_period data = Ok (lo, hi, period) →
  ∃ a b, lo = Some a ∧ hi = Some b ∧
         is_least a (m_start <$> data) ∧ is_greatest b (m_end <$> data) ∧
         period = seqZ a (b - a).
Proof.
  unfold get_data_period, np_arange.
  destruct (np_min _) as [a|] eqn:Ha; [|done].
  destruct (np_max _) as [b|] eqn:Hb; [|done].
  intros [= <- <- <-]. exists a, b.
  by rewrite <-np_min_least, <-np_max_greatest.
Qed.

(** Whenever a period is returned, the greatest end year is not one of
    its years. *)
Lemma period_excludes_max_end data lo hi period :
  get_data_period data = Ok (lo, Some hi, period) → hi ∉ period.
Proof.
  intros (a & b & _ & [= <-] & _ & _ & ->)%get_data_period_Ok.
  rewrite elem_of_seqZ. lia.
Qed.

(** C3: when the least start year [lo] is below the greatest end year
    [hi], [get_data_period] returns the years [lo], [lo + 1], ...,
    [hi - 1] in order: the least year of the period is [lo] and the
    greatest is [hi - 1]. *)
Theorem get_data_period_bounds data lo hi :
  is_least lo (m_start <$> data) →
  is_greatest hi (m_end <$> data) →
  lo < hi →
  ∃ period,
    get_data_period data = Ok (Some lo, Some hi, period) ∧
    length period = Z.to_nat (hi - lo) ∧
    (∀ i : nat, (i < length period)%nat → period !! i = Some (lo + Z.of_nat i)) ∧
    head period = Some lo ∧
    last period = Some (hi - 1) ∧
    (∀ year, year ∈ period ↔ lo ≤ year ≤ hi - 1).
Proof.
  intros Hlo%np_min_least Hhi%np_max_greatest Hlt.
  exists (seqZ lo (hi - lo)).
  assert (Hlen : length (seqZ lo (hi - lo)) = Z.to_nat (hi - lo))
    by apply length_seqZ.
  split; [|split; [done|split; [|split; [|split]]]].
  - unfold get_data_period. by rewrite Hlo, Hhi.
  - intros i Hi. apply lookup_seqZ_lt. lia.
  - rewrite head_lookup, lookup_seqZ_lt by lia. f_equal. lia.
  - rewrite last_lookup, Hlen, lookup_seqZ_lt by lia. f_equal. lia.
  - intros year. rewrite elem_of_seqZ. lia.
Qed.

(** C5: on the table without rows [get_data_period] raises; it does not
    return an empty period. *)
Theorem get_data_period_empty :
  @get_data_period coord [] = Raise ValueError.
Proof. reflexivity. Qed.

End PeriodFacts.

(** ** Loops in the state and exception monad *)

Section MonadFacts.
Context {S : Type}.

Lemma bind_Ok {A B} (m : M S A) (k : A → M S B) (s s' : S) (a : A) :
  m s = (Ok a, s') → (m ≫= k) s = k a s'.
Proof. unfold mbind, M_bind. by intros ->. Qed.

(** A loop over the positions of a list whose body keeps an invariant
    of the prefix it has gone through. *)
Lemma for_each_positions {A} (xs : list A) (body : nat → M S unit)
    (I : list A → S → Prop) :
  (∀ pre a suf s, xs = pre ++ a :: suf → I pre s →
     ∃ s', body (length pre) s = (Ok (), s') ∧ I (pre ++ [a]) s') →
  ∀ suf pre s, xs = pre ++ suf → I pre s →
    ∃ s', for_each (seq (length pre) (length suf)) body s = (Ok (), s') ∧ I xs s'.
Proof.
  intros Hbody. induction suf as [|a suf IH]; intros pre s Hxs HI.
  - rewrite app_nil_r in Hxs. subst. by exists s.
  - destruct (Hbody pre a suf s Hxs HI) as (s1 & Hrun & HI1).
    destruct (IH (pre ++ [a]) s1) as (s2 & Hrun2 & HI2);
      [by rewrite <-app_assoc|done|].
    exists s2. split; [|done].
    simpl. rewrite (bind_Ok _ _ _ _ _ Hrun).
    rewrite length_app, Nat.add_1_r in Hrun2. done.
Qed.

(** A loop whose body returns normally and keeps [P] returns normally and
    keeps [P]. *)
Lemma for_each_Ok {A} (xs : list A) (body : A → M S unit) (P : S → Prop) :
  (∀ x s, x ∈ xs → P s → ∃ s', body x s = (Ok (), s') ∧ P s') →
  ∀ s, P s → ∃ s', for_each xs body s = (Ok (), s') ∧ P s'.
Proof.
  induction xs as [|x xs IH]; intros Hbody s HP.
  - by exists s.
  - destruct (Hbody x s) as (s1 & Hrun & HP1); [by left|done|].
    destruct (IH (λ y s Hy, Hbody y s (list_elem_of_further _ _ _ Hy)) s1 HP1)
      as (s2 & Hrun2 & HP2).
    exists s2. split; [|done]. simpl. by rewrite (bind_Ok _ _ _ _ _ Hrun).
Qed.

End MonadFacts.

(** ** The frame callbacks *)

Section AnimationFacts.
Context {coord : Type}.
Implicit Types (self : SubplotAnimation.t coord).

Lemma getitem_Ok {A} (a : list A) (i : nat) (x : A) :
  a !! i = Some x → getitem a (Z.of_nat i) = Ok x.
Proof.
  intros Hx. pose proof (lookup_lt_Some _ _ _ Hx). unfold getitem. cbv zeta.
  rewrite (bool_decide_eq_false_2 (Z.of_nat i < 0)) by lia.
  rewrite bool_decide_eq_true_2 by lia.
  by rewrite Nat2Z.id, Hx.
Qed.

Ltac run_frame :=
  unfold SubplotAnimation._draw_frame, mbind, M_bind, gets, modify, lift;
  simpl.

(** Whatever the frame index and however the call ends, [_draw_frame]
    leaves the canvas and the three data attributes as they were. *)
Lemma draw_frame_keeps (i : Z) self :
  let self' := (SubplotAnimation._draw_frame i self).2 in
  SubplotAnimation.fig self' = SubplotAnimation.fig self ∧
  SubplotAnimation.stations self' = SubplotAnimation.stations self ∧
  SubplotAnimation.locations self' = SubplotAnimation.locations self ∧
  SubplotAnimation.period self' = SubplotAnimation.period self.
Proof.
  run_frame.
  destruct (getitem _ i) as [year|e]; simpl; [|done].
  destruct (dict_getitem _ year) as [a|e]; simpl; [|done].
  destruct a as [|rows]; simpl; done.
Qed.

(** A frame whose year has a two-dimensional array of locations. *)
Lemma draw_frame_Ok (i : Z) self year rows :
  getitem (SubplotAnimation.period self) i = Ok year →
  SubplotAnimation.locations self !! year = Some (Nd2 rows) →
  SubplotAnimation._draw_frame i self
  = (Ok (),
     SubplotAnimation.Self
       (SubplotAnimation.fig self)
       (SubplotAnimation.stations self)
       (SubplotAnimation.locations self)
       (SubplotAnimation.period self)
       (SubplotAnimation.Line (slice_to i (SubplotAnimation.period self))
                              (slice_to i (SubplotAnimation.stations self)))
       (SubplotAnimation.Line (fst <$> rows) (snd <$> rows))
       (pretty year)
       [SubplotAnimation.Time; SubplotAnimation.Space; SubplotAnimation.Text]).
Proof.
  intros Hi Hy. run_frame. rewrite Hi. simpl.
  unfold dict_getitem. rewrite Hy. done.
Qed.

(** A frame whose year has the empty, one-dimensional array: the line
    has been updated when the column extraction raises. *)
Lemma draw_frame_empty_year (i : Z) self year :
  getitem (SubplotAnimation.period self) i = Ok year →
  SubplotAnimation.locations self !! year = Some Nd1 →
  SubplotAnimation._draw_frame i self
  = (Raise IndexError,
     SubplotAnimation.time_set_data
       (slice_to i (SubplotAnimation.period self))
       (slice_to i (SubplotAnimation.stations self)) self).
Proof.
  intros Hi Hy. run_frame. rewrite Hi. simpl.
  unfold dict_getitem. rewrite Hy. done.
Qed.

Lemma elem_of_new_frame_seq self (i : Z) :
  i ∈ SubplotAnimation.new_frame_seq self
  ↔ 0 ≤ i < Z.of_nat (length (SubplotAnimation.period self)).
Proof. unfold SubplotAnimation.new_frame_seq. rewrite elem_of_seqZ. lia. Qed.

(** C9: the frame sequence is 0, 1, ..., [length period - 1], and for
    each of its indices [i] the reads of [_draw_frame] are defined when
    the locations are those [get_station_locations] built for the same
    period: [period[i]] is in bounds, the dict has the key [period[i]],
    and if a station is active in that year both columns can be
    extracted and the call returns normally. *)
Theorem frame_accesses_defined (m_start m_end : cell)
    (data : list (station coord)) (period : list Z) :
  let self :=
    SubplotAnimation.__init__ m_start m_end (count_stations data period)
      (get_station_locations data period) period in
  length (SubplotAnimation.new_frame_seq self) = length period ∧
  (∀ k : nat, (k < length period)%nat →
     SubplotAnimation.new_frame_seq self !! k = Some (Z.of_nat k)) ∧
  (∀ i : Z, i ∈ SubplotAnimation.new_frame_seq self →
     ∃ year a,
       getitem (SubplotAnimation.period self) i = Ok year ∧
       dict_getitem (SubplotAnimation.locations self) year = Ok a ∧
       (active_stations year data ≠ [] →
          ∃ lons lats,
            nd_col0 a = Ok lons ∧ nd_col1 a = Ok lats ∧
            (SubplotAnimation._draw_frame i self).1 = Ok ())).
Proof.
  intros self. split; [|split].
  - unfold SubplotAnimation.new_frame_seq. simpl.
    by rewrite length_seqZ, Nat2Z.id.
  - intros k Hk. unfold SubplotAnimation.new_frame_seq. simpl.
    by rewrite lookup_seqZ_lt by lia.
  - intros i [Hi0 Hi]%elem_of_new_frame_seq. simpl in Hi.
    destruct (lookup_lt_is_Some_2 period (Z.to_nat i)) as [year Hyear];
      [unfold self in Hi; simpl in Hi; lia|].
    assert (Hget : getitem period i = Ok year).
    { rewrite <-(Z2Nat.id i) by done. by apply getitem_Ok. }
    assert (Hloc : get_station_locations data period !! year
                   = Some (np_array (collect year data))).
    { rewrite get_station_locations_lookup, decide_True; [done|].
      by eapply list_elem_of_lookup_2. }
    exists year, (np_array (collect year data)). split; [done|split].
    + simpl. unfold dict_getitem. by rewrite Hloc.
    + intros Hactive. rewrite collect_spec in *.
      destruct (active_stations year data) as [|s l]; [done|].
      simpl in *. eexists _, _. split; [done|split; [done|]].
      by erewrite draw_frame_Ok.
Qed.

(** When every year of the period has an active station the whole
    animation plays: each frame of the sequence is drawn and the
    scheduler comes to the end of the sequence. *)
Lemma play_completes (m_start m_end : cell)
    (data : list (station coord)) (period : list Z) :
  (∀ year, year ∈ period → active_stations year data ≠ []) →
  ∃ self',
    SubplotAnimation.play
      (SubplotAnimation.__init__ m_start m_end (count_stations data period)
         (get_station_locations data period) period)
    = (Ok (), self') ∧
    SubplotAnimation.period self' = period ∧
    SubplotAnimation.locations self' = get_station_locations data period.
Proof.
  intros Hall. unfold SubplotAnimation.play, SubplotAnimation._init_draw.
  unfold mbind at 1 2 3 4, M_bind at 1 2 3 4, modify, gets. simpl.
  apply (for_each_Ok _ _
           (λ self, SubplotAnimation.period self = period ∧
                    SubplotAnimation.locations self
                    = get_station_locations data period)); [|done].
  intros i self [Hi0 Hi]%elem_of_seqZ [Hp Hl]. simpl in Hi.
  destruct (lookup_lt_is_Some_2 period (Z.to_nat i)) as [year Hyear]; [lia|].
  assert (Hin : year ∈ period) by (by eapply list_elem_of_lookup_2).
  assert (Hget : getitem (SubplotAnimation.period self) i = Ok year).
  { rewrite Hp, <-(Z2Nat.id i) by done. by apply getitem_Ok. }
  pose proof (Hall year Hin) as Hne.
  assert (Hloc : SubplotAnimation.locations self !! year
                 = Some (Nd2 (collect year data))).
  { rewrite Hl, get_station_locations_lookup, decide_True by done.
    rewrite collect_spec in *.
    by destruct (active_stations year data). }
  eexists. split; [by apply draw_frame_Ok|done].
Qed.

End AnimationFacts.

(** ** The aggregation stages over a store *)


Section StoreFacts.
Context {coord : Type}.
Implicit Types (h : Store.heap coord) (rows : list (station coord)).
Implicit Types (l data period : Store.loc).

Lemma load_frame_run h data rows :
  h !! data = Some (Store.DataFrame rows) →
  Store.load_frame data h = (Ok rows, h).
Proof.
  intros H. unfold Store.load_frame, Store.load, mbind, M_bind. by rewrite H.
Qed.

Lemma load_ints_run h l (a : list Z) :
  h !! l = Some (Store.IntArray a) → Store.load_ints l h = (Ok a, h).
Proof.
  intros H. unfold Store.load_ints, Store.load, mbind, M_bind. by rewrite H.
Qed.

Lemma load_list_run h l (ls : list (coord * coord)) :
  h !! l = Some (Store.PyList ls) → Store.load_list l h = (Ok ls, h).
Proof.
  intros H. unfold Store.load_list, Store.load, mbind, M_bind. by rewrite H.
Qed.

Lemma load_dict_run h l (d : gmap Z Store.loc) :
  h !! l = Some (Store.PyDict d) → Store.load_dict l h = (Ok d, h).
Proof.
  intros H. unfold Store.load_dict, Store.load, mbind, M_bind. by rewrite H.
Qed.

Lemma size_run h l (a : list Z) :
  h !! l = Some (Store.IntArray a) → Store.size l h = (Ok (length a), h).
Proof.
  intros H. unfold Store.size. by rewrite (bind_Ok _ _ _ _ _ (load_ints_run _ _ _ H)).
Qed.

Lemma len_index_run h data rows :
  h !! data = Some (Store.DataFrame rows) →
  Store.len_index data h = (Ok (length rows), h).
Proof.
  intros H. unfold Store.len_index.
  by rewrite (bind_Ok _ _ _ _ _ (load_frame_run _ _ _ H)).
Qed.

Lemma item_run h l (a : list Z) (i : nat) (x : Z) :
  h !! l = Some (Store.IntArray a) → a !! i = Some x →
  Store.item l i h = (Ok x, h).
Proof.
  intros H Hx. unfold Store.item.
  rewrite (bind_Ok _ _ _ _ _ (load_ints_run _ _ _ H)). by rewrite Hx.
Qed.

Lemma iloc_run {A} h data rows (column : station coord → A) (i : nat) s :
  h !! data = Some (Store.DataFrame rows) → rows !! i = Some s →
  Store.iloc data column i h = (Ok (column s), h).
Proof.
  intros H Hs. unfold Store.iloc.
  rewrite (bind_Ok _ _ _ _ _ (load_frame_run _ _ _ H)). by rewrite Hs.
Qed.

Lemma incr_item_run h l (a : list Z) (i : nat) :
  h !! l = Some (Store.IntArray a) → (i < length a)%nat →
  Store.incr_item l i h
  = (Ok (), <[l := Store.IntArray (alter (λ c, c + 1) i a)]> h).
Proof.
  intros H Hi. unfold Store.incr_item.
  rewrite (bind_Ok _ _ _ _ _ (load_ints_run _ _ _ H)).
  destruct (lookup_lt_is_Some_2 a i Hi) as [c Hc]. rewrite Hc.
  unfold Store.store. do 3 f_equal.
  rewrite list_insert_alter. apply list_alter_ext; [|done].
  intros c' Hc'. congruence.
Qed.

Lemma append_run h l (ls : list (coord * coord)) x :
  h !! l = Some (Store.PyList ls) →
  Store.append l x h = (Ok (), <[l := Store.PyList (ls ++ [x])]> h).
Proof.
  intros H. unfold Store.append.
  by rewrite (bind_Ok _ _ _ _ _ (load_list_run _ _ _ H)).
Qed.

Lemma setitem_run h l (d : gmap Z Store.loc) (k : Z) (v : Store.loc) :
  h !! l = Some (Store.PyDict d) →
  Store.setitem l k v h = (Ok (), <[l := Store.PyDict (<[k := v]> d)]> h).
Proof.
  intros H. unfold Store.setitem.
  by rewrite (bind_Ok _ _ _ _ _ (load_dict_run _ _ _ H)).
Qed.

Lemma fresh_lookup h : h !! fresh (dom h) = None.
Proof. apply not_elem_of_dom_1, is_fresh. Qed.

Lemma alloc_run h (o : Store.obj coord) :
  Store.alloc o h = (Ok (fresh (dom h)), <[fresh (dom h) := o]> h).
Proof. done. Qed.

Lemma zeros_like_run h l (a : list Z) :
  h !! l = Some (Store.IntArray a) →
  Store.zeros_like l h
  = (Ok (fresh (dom h)),
     <[fresh (dom h) := Store.IntArray (np_zeros_like a)]> h).
Proof.
  intros H. unfold Store.zeros_like.
  by rewrite (bind_Ok _ _ _ _ _ (load_ints_run _ _ _ H)).
Qed.

Lemma array_run h l (ls : list (coord * coord)) :
  h !! l = Some (Store.PyList ls) →
  Store.array l h
  = (Ok (fresh (dom h)),
     <[fresh (dom h) := Store.PairArray (np_array ls)]> h).
Proof.
  intros H. unfold Store.array.
  by rewrite (bind_Ok _ _ _ _ _ (load_list_run _ _ _ H)).
Qed.

(** The loops of the pure [count_stations] keep the length of the array. *)
Lemma count_inner_length year (index_p : nat) rows (st : list Z) :
  length (foldl (λ stations s,
                   if active year s
                   then alter (λ c, c + 1) index_p stations
                   else stations) st rows) = length st.
Proof. by rewrite count_inner, length_alter. Qed.

Lemma count_outer_length rows (st : list Z) (l : list (nat * Z)) :
  length (foldl (λ stations '(index_p, year),
                   foldl (λ stations s,
                            if active year s
                            then alter (λ c, c + 1) index_p stations
                            else stations)
                         stations rows) st l) = length st.
Proof.
  revert st. induction l as [|[i y] l IH]; intros st; [done|].
  simpl. by rewrite IH, count_inner_length.
Qed.

Lemma enumerate_snoc {A} (pre : list A) (a : A) :
  enumerate (pre ++ [a]) = enumerate pre ++ [(length pre, a)].
Proof.
  unfold enumerate. rewrite imap_app. simpl. by rewrite Nat.add_0_r.
Qed.

(** Run from a store that holds the table and the period,
    [Store.count_stations] returns a new reference, and the only
    difference between the stores is the array behind it, which is the
    array the pure [count_stations] computes. *)
Lemma count_stations_run h data period rows (p : list Z) :
  h !! data = Some (Store.DataFrame rows) →
  h !! period = Some (Store.IntArray p) →
  Store.count_stations data period h
  = (Ok (fresh (dom h)),
     <[fresh (dom h) := Store.IntArray (count_stations rows p)]> h).
Proof.
  intros Hd Hp. pose proof (fresh_lookup h) as Hl.
  set (l := fresh (dom h)) in *.
  assert (l ≠ data) as Hld by congruence.
  assert (l ≠ period) as Hlp by congruence.
  unfold Store.count_stations.
  rewrite (bind_Ok _ _ _ _ _ (zeros_like_run _ _ _ Hp)). fold l.
  erewrite bind_Ok; [|apply size_run; by rewrite lookup_insert_ne].
  set (outer := λ (stations : list Z) '(index_p, year),
                  foldl (λ stations s,
                           if active year s
                           then alter (λ c, c + 1) index_p stations
                           else stations) stations rows).
  set (I := λ (pre : list Z) (s : Store.heap coord),
              s = <[l := Store.IntArray
                           (foldl outer (np_zeros_like p) (enumerate pre))]> h).
  match goal with |- context [for_each _ ?b] => set (body := b) end.
  assert (Hbody : ∀ pre a suf s, p = pre ++ a :: suf → I pre s →
            ∃ s', body (length pre) s = (Ok (), s') ∧ I (pre ++ [a]) s').
  { intros pre year suf s Hpre ->.
    set (st := foldl outer (np_zeros_like p) (enumerate pre)).
    assert (Hst : (length pre < length st)%nat).
    { unfold st, outer. rewrite count_outer_length.
      unfold np_zeros_like. rewrite length_replicate, Hpre, length_app.
      simpl. lia. }
    eexists. split; [|unfold I; rewrite enumerate_snoc, foldl_app; done].
    unfold body.
    erewrite bind_Ok;
      [|eapply item_run;
         [by rewrite lookup_insert_ne|
          by rewrite Hpre, list_lookup_middle]].
    erewrite bind_Ok; [|apply len_index_run; by rewrite lookup_insert_ne].
    simpl. fold st.
    set (J := λ (done_ : list (station coord)) (s : Store.heap coord),
                s = <[l := Store.IntArray
                             (foldl (λ stations s,
                                       if active year s
                                       then alter (λ c, c + 1) (length pre) stations
                                       else stations) st done_)]> h).
    match goal with |- for_each _ ?b _ = _ => set (inner := b) end.
    destruct (for_each_positions rows inner J) with (suf := rows)
      (pre := @nil (station coord)) (s := <[l := Store.IntArray st]> h)
      as (s' & Hrun & ->); [|done|done|exact Hrun].
    intros done_ r todo s Hrows ->.
    set (st' := foldl _ st done_).
    assert (Hr : rows !! length done_ = Some r)
      by (by rewrite Hrows, list_lookup_middle).
    assert (Hst' : (length pre < length st')%nat)
      by (unfold st'; by rewrite count_inner_length).
    eexists. split; [|unfold J; rewrite foldl_app; done].
    unfold inner.
    erewrite bind_Ok;
      [|eapply iloc_run; [by rewrite lookup_insert_ne|done]].
    simpl. fold st'. unfold active.
    destruct (year_ge year (m_start r)); simpl; [|done].
    erewrite bind_Ok;
      [|eapply iloc_run; [by rewrite lookup_insert_ne|done]].
    destruct (year_le year (m_end r)); simpl; [|done].
    erewrite incr_item_run; [|apply lookup_insert_eq|done].
    by rewrite insert_insert_eq. }
  destruct (for_each_positions p body I Hbody p [] (<[l := Store.IntArray (np_zeros_like p)]> h))
    as (s' & Hrun & ->); [done|done|].
  simpl in Hrun. erewrite bind_Ok; [|exact Hrun]. done.
Qed.

(** Run from a store that holds the table and the period,
    [Store.get_station_locations] returns a new reference to a dict;
    the store it leaves extends the one it started from, and the dict,
    read through its references, is the one the pure
    [get_station_locations] computes. *)
Lemma get_station_locations_run h data period rows (p : list Z) :
  h !! data = Some (Store.DataFrame rows) →
  h !! period = Some (Store.IntArray p) →
  ∃ h',
    Store.get_station_locations data period h = (Ok (fresh (dom h)), h') ∧
    h ⊆ h' ∧
    Store.deref_dict h' (fresh (dom h)) = Some (get_station_locations rows p).
Proof.
  intros Hd Hp. pose proof (fresh_lookup h) as Hl.
  set (l := fresh (dom h)) in *.
  unfold Store.get_station_locations.
  set (I := λ (pre : list Z) (s : Store.heap coord),
              h ⊆ s ∧
              ∃ d, s !! l = Some (Store.PyDict d) ∧
                   (∀ y, y ∈ pre →
                      ∃ r, d !! y = Some r ∧
                           s !! r = Some (Store.PairArray
                                            (np_array (collect y rows)))) ∧
                   (∀ y, y ∉ pre → d !! y = None)).
  rewrite (bind_Ok _ _ _ _ _ (alloc_run _ _)). fold l.
  erewrite bind_Ok;
    [|apply size_run; rewrite lookup_insert_ne; [done|congruence]].
  match goal with |- context [for_each _ ?b] => set (body := b) end.
  assert (Hbody : ∀ pre a suf s, p = pre ++ a :: suf → I pre s →
            ∃ s', body (length pre) s = (Ok (), s') ∧ I (pre ++ [a]) s').
  { intros pre year suf s Hpre (Hsub & d & Hs & Hin & Hout).
    pose proof (lookup_weaken _ _ _ _ Hd Hsub) as Hsd.
    pose proof (lookup_weaken _ _ _ _ Hp Hsub) as Hsp.
    pose proof (fresh_lookup s) as Hls. set (ls := fresh (dom s)) in *.
    assert (ls ≠ data) by congruence.
    assert (ls ≠ l) by congruence.
    unfold body.
    erewrite bind_Ok;
      [|eapply item_run; [done|by rewrite Hpre, list_lookup_middle]].
    rewrite (bind_Ok _ _ _ _ _ (alloc_run _ _)). fold ls.
    erewrite bind_Ok; [|apply len_index_run; by rewrite lookup_insert_ne].
    set (J := λ (done_ : list (station coord)) (s' : Store.heap coord),
                s' = <[ls := Store.PyList
                              (foldl (λ ls s,
                                        if active year s
                                        then ls ++ [(long s, lat s)]
                                        else ls) [] done_)]> s).
    match goal with |- context [for_each _ ?b] => set (inner := b) end.
    destruct (for_each_positions rows inner J) with (suf := rows)
      (pre := @nil (station coord)) (s := <[ls := Store.PyList []]> s)
      as (s2 & Hrun & Hs2); [|done|done|].
    { intros done_ r todo s' Hrows ->.
      assert (Hr : rows !! length done_ = Some r)
        by (by rewrite Hrows, list_lookup_middle).
      eexists. split; [|unfold J; rewrite foldl_app; done].
      unfold inner.
      erewrite bind_Ok;
        [|eapply iloc_run; [by rewrite lookup_insert_ne|done]].
      simpl. unfold active.
      destruct (year_ge year (m_start r)); simpl; [|done].
      erewrite bind_Ok;
        [|eapply iloc_run; [by rewrite lookup_insert_ne|done]].
      destruct (year_le year (m_end r)); simpl; [|done].
      erewrite bind_Ok;
        [|eapply iloc_run; [by rewrite lookup_insert_ne|done]].
      erewrite bind_Ok;
        [|eapply iloc_run; [by rewrite lookup_insert_ne|done]].
      erewrite append_run; [|apply lookup_insert_eq].
      by rewrite insert_insert_eq. }
    simpl in Hrun. erewrite bind_Ok; [|exact Hrun].
    unfold J in Hs2. fold (collect year rows) in Hs2. subst s2.
    set (s2 := <[ls := Store.PyList (collect year rows)]> s).
    pose proof (fresh_lookup s2) as Ha. set (a := fresh (dom s2)) in *.
    assert (s2 !! l = Some (Store.PyDict d))
      by (unfold s2; by rewrite lookup_insert_ne).
    assert (a ≠ l) by congruence.
    assert (a ≠ ls)
      by (intros ->; unfold s2 in Ha; by rewrite lookup_insert_eq in Ha).
    assert (s !! a = None)
      by (unfold s2 in Ha; by rewrite lookup_insert_ne in Ha).
    erewrite bind_Ok; [|apply array_run; apply lookup_insert_eq]. fold a.
    erewrite setitem_run; [|by rewrite lookup_insert_ne].
    eexists. split; [done|]. split; [|eexists; split; [apply lookup_insert_eq|split]].
    - apply insert_subseteq_r; [done|].
      apply insert_subseteq_r; [by eapply lookup_weaken_None|].
      apply insert_subseteq_r; [by eapply lookup_weaken_None|done].
    - intros y [Hy| ->%list_elem_of_singleton]%elem_of_app.
      + destruct (Hin y Hy) as (r & Hdr & Hr).
        destruct (decide (y = year)) as [->|Hne].
        * exists a. rewrite lookup_insert_eq. split; [done|].
          rewrite lookup_insert_ne, lookup_insert_eq by done. done.
        * exists r. rewrite lookup_insert_ne by done. split; [done|].
          unfold s2. rewrite !lookup_insert_ne; [done|congruence..].
      + exists a. rewrite lookup_insert_eq. split; [done|].
        rewrite lookup_insert_ne, lookup_insert_eq by done. done.
    - intros y Hy. rewrite elem_of_app, list_elem_of_singleton in Hy.
      rewrite lookup_insert_ne by (intros ->; tauto).
      apply Hout. tauto. }
  destruct (for_each_positions p body I Hbody p [] (<[l := Store.PyDict ∅]> h))
    as (h' & Hrun & Hsub & d & Hh' & Hin & Hout); [done| |].
  { split; [by apply insert_subseteq|].
    exists ∅. split; [apply lookup_insert_eq|split].
    - by intros y ?%elem_of_nil.
    - intros y _. apply lookup_empty. }
  exists h'. simpl in Hrun. erewrite bind_Ok; [|exact Hrun].
  split; [done|split; [done|]].
  unfold Store.deref_dict. rewrite Hh'. f_equal. apply map_eq. intros y.
  rewrite lookup_omap, get_station_locations_lookup.
  destruct (decide (y ∈ p)) as [Hy|Hy].
  - destruct (Hin y Hy) as (r & -> & Hr). simpl. by rewrite Hr.
  - by rewrite (Hout y Hy).
Qed.

(** C10: run from a store that holds the table behind [data] and the
    period behind [period], each of the two scans returns normally and
    every object the store held before the call is the same object
    after it; in particular the table, with all its columns, and the
    period array. *)
Theorem aggregation_leaves_inputs h data period rows (p : list Z) :
  h !! data = Some (Store.DataFrame rows) →
  h !! period = Some (Store.IntArray p) →
  (∃ l h',
     Store.count_stations data period h = (Ok l, h') ∧
     (∀ r o, h !! r = Some o → h' !! r = Some o) ∧
     h' !! data = Some (Store.DataFrame rows) ∧
     h' !! period = Some (Store.IntArray p)) ∧
  (∃ l h',
     Store.get_station_locations data period h = (Ok l, h') ∧
     (∀ r o, h !! r = Some o → h' !! r = Some o) ∧
     h' !! data = Some (Store.DataFrame rows) ∧
     h' !! period = Some (Store.IntArray p)).
Proof.
  intros Hd Hp. split.
  - eexists _, _. split; [by apply count_stations_run|].
    assert (∀ r o, h !! r = Some o →
              <[fresh (dom h) := Store.IntArray (count_stations rows p)]> h !! r
              = Some o) as Hkeep.
    { intros r o Hr. rewrite lookup_insert_ne; [done|].
      pose proof (fresh_lookup h). congruence. }
    auto.
  - destruct (get_station_locations_run h data period rows p Hd Hp)
      as (h' & Hrun & Hsub & _).
    exists (fresh (dom h)), h'. split; [done|].
    assert (∀ r o, h !! r = Some o → h' !! r = Some o) as Hkeep
      by (intros r o Hr; by eapply lookup_weaken).
    auto.
Qed.

End StoreFacts.

(** ** Scenarios *)

Section Scenarios.
Context {coord : Type}.

(** C4: the period of a station with range [2000, 2005] is 2000..2004:
    the greatest end year, 2005, is not in it although the station is
    active in 2005 for the test of the two scans. *)
Theorem period_stops_before_last_year (lat1 lon1 : coord) :
  get_data_period (one_station lat1 lon1)
    = Ok (Some 2000, Some 2005, [2000; 2001; 2002; 2003; 2004]) ∧
  (2005 ∉ [2000; 2001; 2002; 2003; 2004]) ∧
  active 2005 (Station lat1 lon1 (Some 2000) (Some 2005)) = true.
Proof.
  split; [reflexivity|split; [|reflexivity]].
  rewrite !elem_of_cons, elem_of_nil. lia.
Qed.

(** C6: for two stations with ranges [2000, 2005] and [2003, 2010] the
    period is 2000..2009, the count at the position of 2004 is 2, the
    count at the position of 2001 is 1, and 2010 is not a year of the
    period: there are ten counts, none of them for 2010, and the
    locations have no entry for 2010. *)
Theorem two_stations_scenario (lat1 lon1 lat2 lon2 : coord) :
  let data := two_stations lat1 lon1 lat2 lon2 in
  let period := [2000; 2001; 2002; 2003; 2004; 2005; 2006; 2007; 2008; 2009] in
  get_data_period data = Ok (Some 2000, Some 2010, period) ∧
  period !! (4%nat) = Some 2004 ∧
  count_stations data period !! (4%nat) = Some 2 ∧
  period !! (1%nat) = Some 2001 ∧
  count_stations data period !! (1%nat) = Some 1 ∧
  (2010 ∉ period) ∧
  length (count_stations data period) = 10%nat ∧
  get_station_locations data period !! 2010 = None.
Proof.
  intros data period. repeat split; try reflexivity.
  subst period. rewrite !elem_of_cons, elem_of_nil. lia.
Qed.

(** C8: two stations with ranges [2000, 2001] and [2004, 2006] give the
    period 2000..2005.  In 2002 no station is active: frame 2 updates
    the line and then raises [IndexError], so the point cloud and the
    label are not updated.  Played from the start, the animation ends
    in that frame with the cloud and the label of 2001. *)
Theorem draw_frame_raises_on_empty_year (lat1 lon1 lat2 lon2 : coord) :
  let data := gap_stations lat1 lon1 lat2 lon2 in
  let period := [2000; 2001; 2002; 2003; 2004; 2005] in
  let self :=
    SubplotAnimation.__init__ (Some 2000) (Some 2006)
      (count_stations data period) (get_station_locations data period) period in
  get_data_period data = Ok (Some 2000, Some 2006, period) ∧
  SubplotAnimation.new_frame_seq self = [0; 1; 2; 3; 4; 5] ∧
  active_stations 2002 data = [] ∧
  SubplotAnimation._draw_frame 2 self
    = (Raise IndexError,
       SubplotAnimation.time_set_data [2000; 2001] [1; 1] self) ∧
  SubplotAnimation.play self
    = (Raise IndexError,
       SubplotAnimation.Self
         (SubplotAnimation.fig self)
         (SubplotAnimation.stations self)
         (SubplotAnimation.locations self)
         (SubplotAnimation.period self)
         (SubplotAnimation.Line [2000; 2001] [1; 1])
         (SubplotAnimation.Line [lon1] [lat1])
         "2001"
         [SubplotAnimation.Time; SubplotAnimation.Space; SubplotAnimation.Text]).
Proof. repeat split. Qed.

End Scenarios.

(** ** Instances of the conditional statements *)

Lemma count_agrees_with_locations_witness :
  seqZ 2000 10 !! (4%nat) = Some 2004 ∧
  ∃ a, get_station_locations (two_stations 50 10 48 2) (seqZ 2000 10) !! 2004
         = Some a ∧
       count_stations (two_stations 50 10 48 2) (seqZ 2000 10) !! (4%nat)
         = Some (Z.of_nat (nd_len a)).
Proof.
  split; [reflexivity|].
  apply (count_agrees_with_locations (two_stations 50 10 48 2) (seqZ 2000 10) 4 2004).
  reflexivity.
Defined.

Lemma get_data_period_bounds_witness :
  ∃ period,
    get_data_period (two_stations 50 10 48 2) = Ok (Some 2000, Some 2010, period) ∧
    length period = Z.to_nat (2010 - 2000) ∧
    (∀ i : nat, (i < length period)%nat → period !! i = Some (2000 + Z.of_nat i)) ∧
    head period = Some 2000 ∧
    last period = Some (2010 - 1) ∧
    (∀ year, year ∈ period ↔ 2000 ≤ year ≤ 2010 - 1).
Proof.
  apply (get_data_period_bounds (two_stations 50 10 48 2) 2000 2010).
  - apply np_min_least. reflexivity.
  - apply np_max_greatest. reflexivity.
  - lia.
Defined.

Lemma frame_accesses_defined_witness :
  let data := two_stations 50 10 48 2 in
  let period := seqZ 2000 10 in
  let self :=
    SubplotAnimation.__init__ (Some 2000) (Some 2010)
      (count_stations data period) (get_station_locations data period) period in
  4 ∈ SubplotAnimation.new_frame_seq self ∧
  active_stations 2004 data ≠ [] ∧
  (SubplotAnimation._draw_frame 4 self).1 = Ok ().
Proof.
  intros data period self.
  assert (Hin : 4 ∈ SubplotAnimation.new_frame_seq self).
  { apply elem_of_new_frame_seq. vm_compute. split; [discriminate|reflexivity]. }
  assert (Hact : active_stations 2004 data ≠ []) by (vm_compute; discriminate).
  split; [done|split; [done|]].
  destruct (frame_accesses_defined (Some 2000) (Some 2010) data period)
    as (_ & _ & H).
  destruct (H 4 Hin) as (year & a & Hyear & _ & Hdraw).
  assert (year = 2004) as -> by (vm_compute in Hyear; congruence).
  destruct (Hdraw Hact) as (lons & lats & _ & _ & Hok). exact Hok.
Defined.

Lemma aggregation_leaves_inputs_witness :
  (∃ l h',
     Store.count_stations 1%positive 2%positive two_stations_store = (Ok l, h') ∧
     (∀ r o, two_stations_store !! r = Some o → h' !! r = Some o) ∧
     h' !! 1%positive = Some (Store.DataFrame (two_stations 50 10 48 2)) ∧
     h' !! 2%positive = Some (Store.IntArray (seqZ 2000 10))) ∧
  (∃ l h',
     Store.get_station_locations 1%positive 2%positive two_stations_store
       = (Ok l, h') ∧
     (∀ r o, two_stations_store !! r = Some o → h' !! r = Some o) ∧
     h' !! 1%positive = Some (Store.DataFrame (two_stations 50 10 48 2)) ∧
     h' !! 2%positive = Some (Store.IntArray (seqZ 2000 10))).
Proof.
  apply (aggregation_leaves_inputs two_stations_store 1%positive 2%positive
           (two_stations 50 10 48 2) (seqZ 2000 10)); reflexivity.
Defined.

(** * Further properties of the aggregation *)

Section MoreAggregation.
Context {coord : Type}.
Implicit Types (data : list (station coord)) (period : list Z) (year : Z).
Implicit Types (s : station coord).

Lemma dropna_nil (col : list cell) :
  dropna col = [] ↔ Forall (λ c, c = None) col.
Proof.
  unfold dropna. induction col as [|[v|] col IH]; simpl.
  - split; [constructor|done].
  - split; [done|]. intros [? _]%Forall_cons_1. done.
  - rewrite IH. split; [by constructor|]. by intros [_ ?]%Forall_cons_1.
Qed.

Lemma np_min_None (col : list cell) :
  np_min col = None ↔ Forall (λ c, c = None) col.
Proof.
  rewrite <-dropna_nil. unfold np_min. by destruct (dropna col).
Qed.

Lemma np_max_None (col : list cell) :
  np_max col = None ↔ Forall (λ c, c = None) col.
Proof.
  rewrite <-dropna_nil. unfold np_max. by destruct (dropna col).
Qed.

(** X1: [get_data_period] has two outcomes.  It raises [ValueError] exactly
    when one of the two bound columns has no value at all (the table
    without rows is one such table); rows with a missing bound are
    otherwise skipped.  In every other case it returns the least start
    year [lo], the greatest end year [hi] and the years from [lo] up to,
    and not including, [hi]. *)
Theorem get_data_period_outcome data :
  ((Forall (λ s, m_start s = None) data ∨ Forall (λ s, m_end s = None) data) ∧
   get_data_period data = Raise ValueError)
  ∨
  (∃ lo hi,
     is_least lo (m_start <$> data) ∧
     is_greatest hi (m_end <$> data) ∧
     get_data_period data = Ok (Some lo, Some hi, seqZ lo (hi - lo))).
Proof.
  unfold get_data_period, np_arange.
  destruct (np_min (m_start <$> data)) as [lo|] eqn:Hlo.
  - destruct (np_max (m_end <$> data)) as [hi|] eqn:Hhi.
    + right. exists lo, hi.
      by rewrite <-np_min_least, <-np_max_greatest.
    + left. split; [|done]. right.
      apply np_max_None in Hhi. by apply Forall_fmap in Hhi.
  - left. split; [|done]. left.
    apply np_min_None in Hlo. by apply Forall_fmap in Hlo.
Qed.

(** X3: reading [locations[year]]: a year of the period gives the array of
    the (longitude, latitude) pairs of the stations active in that year,
    in table order; any other year raises [KeyError]. *)
Theorem locations_getitem data period year :
  dict_getitem (get_station_locations data period) year
  = if decide (year ∈ period)
    then Ok (np_array ((λ s, (long s, lat s)) <$> active_stations year data))
    else Raise KeyError.
Proof.
  unfold dict_getitem. rewrite get_station_locations_lookup.
  case_decide; [|done]. by rewrite collect_spec.
Qed.

(** X4: counting is additive in the table: the counts of two tables put one
    after the other are the sums, position by position, of their
    counts. *)
Theorem count_stations_app data1 data2 period :
  count_stations (data1 ++ data2) period
  = zip_with Z.add (count_stations data1 period) (count_stations data2 period).
Proof.
  rewrite !count_stations_spec. apply list_eq. intros i.
  rewrite lookup_zip_with, !list_lookup_fmap.
  destruct (period !! i) as [year|]; [|done]. simpl. f_equal.
  unfold active_stations. rewrite filter_app, length_app. lia.
Qed.

(** X5: the counts do not depend on the order of the rows. *)
Theorem count_stations_Permutation data data' period :
  data ≡ₚ data' → count_stations data period = count_stations data' period.
Proof.
  intros Hperm. rewrite !count_stations_spec.
  apply list_fmap_ext. intros _ year _. simpl.
  unfold active_stations. by rewrite Hperm.
Qed.

Lemma get_station_locations_ext data data' period :
  (∀ year, active_stations year data = active_stations year data') →
  get_station_locations data period = get_station_locations data' period.
Proof.
  intros Heq. apply map_eq. intros year.
  by rewrite !get_station_locations_lookup, !collect_spec, Heq.
Qed.

(** X6: a row without a usable range, because a bound is missing or because
    the start lies after the end, is invisible to both scans wherever it
    stands in the table. *)
Theorem station_without_range_ignored data1 s data2 period :
  (m_start s = None ∨ m_end s = None ∨
   ∃ a b, m_start s = Some a ∧ m_end s = Some b ∧ b < a) →
  count_stations (data1 ++ s :: data2) period
    = count_stations (data1 ++ data2) period ∧
  get_station_locations (data1 ++ s :: data2) period
    = get_station_locations (data1 ++ data2) period.
Proof.
  intros Hs.
  assert (Hact : ∀ year, active_stations year (data1 ++ s :: data2)
                         = active_stations year (data1 ++ data2)).
  { intros year. unfold active_stations.
    rewrite !filter_app, filter_cons, decide_False; [done|].
    intros (a & b & Ha & Hb & Hab).
    destruct Hs as [?|[?|(a' & b' & ? & ? & ?)]]; simplify_eq; lia. }
  split.
  - rewrite !count_stations_spec. apply list_fmap_ext.
    intros _ year _. simpl. by rewrite Hact.
  - by apply get_station_locations_ext.
Qed.

(** X2: of the years in which a station of the table is active, the period
    leaves out exactly one: the greatest end year.  Every other such
    year is a year of the period. *)
Theorem period_misses_only_last_year data lo hi period s year :
  get_data_period data = Ok (lo, Some hi, period) →
  s ∈ data →
  in_range year s →
  (year ∈ period ∧ year < hi) ∨ (year = hi ∧ hi ∉ period).
Proof.
  intros (a & b & _ & [= <-] & [_ Hlo] & [_ Hhi] & ->)%get_data_period_Ok
         Hs (a' & b' & Ha' & Hb' & Hyear).
  assert (a ≤ a').
  { apply Hlo. rewrite <-Ha'. by apply list_elem_of_fmap_2. }
  assert (b' ≤ hi).
  { apply Hhi. rewrite <-Hb'. by apply list_elem_of_fmap_2. }
  rewrite !elem_of_seqZ.
  destruct (decide (year = hi)) as [->|]; [right|left]; lia.
Qed.

End MoreAggregation.

Lemma count_stations_Permutation_witness :
  two_stations 50 10 48 2 ≡ₚ reverse (two_stations 50 10 48 2) ∧
  count_stations (two_stations 50 10 48 2) (seqZ 2000 10)
    = count_stations (reverse (two_stations 50 10 48 2)) (seqZ 2000 10).
Proof.
  assert (H : two_stations 50 10 48 2 ≡ₚ reverse (two_stations 50 10 48 2))
    by (symmetry; apply reverse_Permutation).
  split; [exact H|].
  exact (count_stations_Permutation _ _ (seqZ 2000 10) H).
Defined.

Lemma station_without_range_ignored_witness :
  let s := Station 0 0 None (Some 2004) in
  (m_start s = None ∨ m_end s = None ∨
   ∃ a b, m_start s = Some a ∧ m_end s = Some b ∧ b < a) ∧
  count_stations (one_station 50 10 ++ s :: one_station 48 2) (seqZ 2000 5)
    = count_stations (one_station 50 10 ++ one_station 48 2) (seqZ 2000 5) ∧
  get_station_locations (one_station 50 10 ++ s :: one_station 48 2) (seqZ 2000 5)
    = get_station_locations (one_station 50 10 ++ one_station 48 2) (seqZ 2000 5).
Proof.
  intros s.
  assert (H : m_start s = None ∨ m_end s = None ∨
              ∃ a b, m_start s = Some a ∧ m_end s = Some b ∧ b < a)
    by (left; reflexivity).
  split; [exact H|].
  exact (station_without_range_ignored (one_station 50 10) s (one_station 48 2)
           (seqZ 2000 5) H).
Defined.

(** * Further properties of the animation *)

Section MoreMonad.
Context {S : Type}.

Lemma for_each_app {A} (xs ys : list A) (body : A → M S unit) (s : S) :
  for_each (xs ++ ys) body s
  = match for_each xs body s with
    | (Ok _, s') => for_each ys body s'
    | (Raise e, s') => (Raise e, s')
    end.
Proof.
  revert s. induction xs as [|x xs IH]; intros s; [done|].
  simpl. unfold mbind, M_bind.
  destruct (body x s) as [[[]|e] s1]; [|done].
  apply IH.
Qed.

Lemma for_each_singleton {A} (x : A) (body : A → M S unit) (s : S) :
  for_each [x] body s = body x s.
Proof.
  simpl. unfold mbind, M_bind.
  by destruct (body x s) as [[[]|e] s1].
Qed.

End MoreMonad.

Section MoreAnimation.
Context {coord : Type}.
Implicit Types (self : SubplotAnimation.t coord).
Implicit Types (data : list (station coord)) (period : list Z) (year : Z).

Ltac run_frame :=
  unfold SubplotAnimation._draw_frame, mbind, M_bind, gets, modify, lift;
  simpl.

Lemma slice_to_nat {A} (i : nat) (a : list A) :
  slice_to (Z.of_nat i) a = take i a.
Proof.
  unfold slice_to. rewrite bool_decide_eq_false_2 by lia.
  by rewrite Nat2Z.id.
Qed.

(** The outcome of a frame of the period when the locations are those of
    the table: it turns on whether a station is active in its year. *)
Lemma frame_outcome data period self (i : nat) year :
  SubplotAnimation.period self = period →
  SubplotAnimation.locations self = get_station_locations data period →
  period !! i = Some year →
  SubplotAnimation._draw_frame (Z.of_nat i) self
  = match active_stations year data with
    | [] =>
        (Raise IndexError,
         SubplotAnimation.time_set_data
           (take i period) (take i (SubplotAnimation.stations self)) self)
    | _ =>
        (Ok (),
         SubplotAnimation.Self
           (SubplotAnimation.fig self)
           (SubplotAnimation.stations self)
           (SubplotAnimation.locations self)
           (SubplotAnimation.period self)
           (SubplotAnimation.Line
              (take i period) (take i (SubplotAnimation.stations self)))
           (SubplotAnimation.Line
              (long <$> active_stations year data)
              (lat <$> active_stations year data))
           (pretty year)
           [SubplotAnimation.Time; SubplotAnimation.Space;
            SubplotAnimation.Text])
    end.
Proof.
  intros Hp Hl Hi.
  assert (Hget : getitem (SubplotAnimation.period self) (Z.of_nat i) = Ok year)
    by (rewrite Hp; by apply getitem_Ok).
  assert (Hloc : SubplotAnimation.locations self !! year
                 = Some (np_array ((λ s, (long s, lat s))
                                     <$> active_stations year data))).
  { rewrite Hl, get_station_locations_lookup, decide_True, collect_spec;
      [done|by eapply list_elem_of_lookup_2]. }
  destruct (active_stations year data) as [|s act] eqn:Hact.
  - rewrite (draw_frame_empty_year _ _ _ Hget Hloc).
    by rewrite !slice_to_nat, Hp.
  - rewrite (draw_frame_Ok _ _ _ _ Hget Hloc).
    rewrite !slice_to_nat, Hp, <-!list_fmap_compose. done.
Qed.

(** X8: in the animation the script builds, the frame of a year with at
    least one active station returns normally and leaves the line
    through the years before that year, the point cloud at the
    longitudes (x) and latitudes (y) of the stations active in the year,
    in table order, and the year as the label. *)
Theorem draw_frame_shows_year (m_start m_end : cell) data period (i : nat) year :
  period !! i = Some year →
  active_stations year data ≠ [] →
  let self :=
    SubplotAnimation.__init__ m_start m_end (count_stations data period)
      (get_station_locations data period) period in
  SubplotAnimation._draw_frame (Z.of_nat i) self
  = (Ok (),
     SubplotAnimation.Self
       (SubplotAnimation.fig self)
       (count_stations data period)
       (get_station_locations data period)
       period
       (SubplotAnimation.Line (take i period)
                              (take i (count_stations data period)))
       (SubplotAnimation.Line (long <$> active_stations year data)
                              (lat <$> active_stations year data))
       (pretty year)
       [SubplotAnimation.Time; SubplotAnimation.Space; SubplotAnimation.Text]).
Proof.
  intros Hi Hact self.
  rewrite (frame_outcome data period self i year eq_refl eq_refl Hi).
  by destruct (active_stations year data).
Qed.

(** X9: in the animation the script builds, a frame of the frame sequence
    raises [IndexError] exactly when the count at its position is zero,
    and returns normally exactly when that count is positive. *)
Theorem draw_frame_raises_iff_zero_count (m_start m_end : cell)
    data period (i : nat) :
  (i < length period)%nat →
  let self :=
    SubplotAnimation.__init__ m_start m_end (count_stations data period)
      (get_station_locations data period) period in
  ((SubplotAnimation._draw_frame (Z.of_nat i) self).1 = Raise IndexError
   ↔ count_stations data period !! i = Some 0) ∧
  ((SubplotAnimation._draw_frame (Z.of_nat i) self).1 = Ok ()
   ↔ ∃ c, count_stations data period !! i = Some c ∧ 0 < c).
Proof.
  intros Hi self.
  destruct (lookup_lt_is_Some_2 period i Hi) as [year Hyear].
  rewrite (frame_outcome data period self i year eq_refl eq_refl Hyear).
  rewrite count_stations_lookup, Hyear. simpl.
  destruct (active_stations year data) as [|s act]; simpl.
  - split; [done|]. split; [done|]. intros (c & [= <-] & ?). lia.
  - split.
    + split; [done|]. intros [= H].
    + split; [|done]. intros _. eexists. split; [done|]. lia.
Qed.

Lemma draw_frame_Ok_inv (i : Z) self :
  (SubplotAnimation._draw_frame i self).1 = Ok () →
  ∃ year rows,
    getitem (SubplotAnimation.period self) i = Ok year ∧
    SubplotAnimation.locations self !! year = Some (Nd2 rows).
Proof.
  run_frame.
  destruct (getitem _ i) as [year|e] eqn:Hget; simpl; [|done].
  unfold dict_getitem.
  destruct (SubplotAnimation.locations self !! year) as [[|rows]|] eqn:Hloc;
    simpl; [done| |done].
  intros _. by exists year, rows.
Qed.

(** X10: a frame that can be drawn depends on nothing an earlier frame left
    behind: drawn after any other frame, whether that one returned or
    raised, it leaves the animation exactly as when drawn alone. *)
Theorem draw_frame_overwrites (i j : Z) self :
  (SubplotAnimation._draw_frame i self).1 = Ok () →
  SubplotAnimation._draw_frame i (SubplotAnimation._draw_frame j self).2
  = SubplotAnimation._draw_frame i self.
Proof.
  intros (year & rows & Hget & Hloc)%draw_frame_Ok_inv.
  destruct (draw_frame_keeps j self) as (Hf & Hs & Hl & Hp).
  rewrite (draw_frame_Ok i self year rows Hget Hloc).
  rewrite (draw_frame_Ok i _ year rows);
    [|by rewrite Hp|by rewrite Hl].
  by rewrite Hf, Hs, Hl, Hp.
Qed.

(** X11: a frame index at or beyond the length of the period: the line is
    set, to the whole period, and then [period[i]] raises [IndexError];
    point cloud and label are not touched. *)
Theorem draw_frame_out_of_range (i : Z) self :
  Z.of_nat (length (SubplotAnimation.period self)) ≤ i →
  SubplotAnimation._draw_frame i self
  = (Raise IndexError,
     SubplotAnimation.time_set_data
       (SubplotAnimation.period self)
       (slice_to i (SubplotAnimation.stations self)) self).
Proof.
  intros Hi. run_frame.
  assert (Hget : getitem (SubplotAnimation.period self) i = Raise IndexError).
  { unfold getitem. cbv zeta.
    rewrite (bool_decide_eq_false_2 (i < 0)) by lia.
    by rewrite bool_decide_eq_false_2 by lia. }
  rewrite Hget. simpl. do 2 f_equal.
  unfold slice_to. rewrite bool_decide_eq_false_2 by lia.
  apply take_ge. lia.
Qed.

(** X12: when the locations have no entry for the year of the frame (they
    were collected for another period), the line is set and then
    [locations[year]] raises [KeyError]. *)
Theorem draw_frame_missing_key (i : Z) self year :
  getitem (SubplotAnimation.period self) i = Ok year →
  SubplotAnimation.locations self !! year = None →
  SubplotAnimation._draw_frame i self
  = (Raise KeyError,
     SubplotAnimation.time_set_data
       (slice_to i (SubplotAnimation.period self))
       (slice_to i (SubplotAnimation.stations self)) self).
Proof.
  intros Hget Hloc. run_frame. rewrite Hget. simpl.
  unfold dict_getitem. by rewrite Hloc.
Qed.

Lemma after_frames_keeps data self pre :
  SubplotAnimation.fig (after_frames data self pre) = SubplotAnimation.fig self ∧
  SubplotAnimation.stations (after_frames data self pre)
    = SubplotAnimation.stations self ∧
  SubplotAnimation.locations (after_frames data self pre)
    = SubplotAnimation.locations self ∧
  SubplotAnimation.period (after_frames data self pre)
    = SubplotAnimation.period self.
Proof. unfold after_frames. by destruct (last pre). Qed.

(** The frames of the first years of the period, as long as each of
    these years has an active station. *)
Lemma play_prefix data self pre suf :
  SubplotAnimation.period self = pre ++ suf →
  SubplotAnimation.locations self = get_station_locations data (pre ++ suf) →
  Forall (λ year, active_stations year data ≠ []) pre →
  for_each (seqZ 0 (Z.of_nat (length pre))) SubplotAnimation._draw_frame self
  = (Ok (), after_frames data self pre).
Proof.
  revert suf. induction pre as [|year pre IH] using rev_ind;
    intros suf Hp Hl Hall; [done|].
  apply Forall_app in Hall as [Hall Hyear].
  rewrite Forall_singleton in Hyear.
  rewrite <-app_assoc in Hp, Hl. simpl in Hp, Hl.
  rewrite length_app, Nat.add_1_r, seqZ_S, for_each_app.
  rewrite (IH _ Hp Hl Hall), for_each_singleton, Z.add_0_l.
  destruct (after_frames_keeps data self pre) as (Hf & Hs & Hl' & Hp').
  rewrite (frame_outcome data (pre ++ year :: suf) _ (length pre) year);
    [|by rewrite Hp'|by rewrite Hl'|by rewrite list_lookup_middle].
  destruct (active_stations year data) as [|s act] eqn:Hact; [done|].
  rewrite Hf, Hs, Hl', Hp'.
  unfold after_frames. rewrite last_snoc, length_app, Nat.add_1_r.
  simpl. rewrite Nat.sub_0_r, Hp, Hact. done.
Qed.

(** The frames up to the first year without an active station. *)
Lemma play_stops data self pre year suf :
  SubplotAnimation.period self = pre ++ year :: suf →
  SubplotAnimation.locations self
    = get_station_locations data (pre ++ year :: suf) →
  Forall (λ year, active_stations year data ≠ []) pre →
  active_stations year data = [] →
  for_each (seqZ 0 (Z.of_nat (length (pre ++ year :: suf))))
           SubplotAnimation._draw_frame self
  = (Raise IndexError,
     SubplotAnimation.time_set_data
       pre (take (length pre) (SubplotAnimation.stations self))
       (after_frames data self pre)).
Proof.
  intros Hp Hl Hall Hyear.
  rewrite length_app, Nat2Z.inj_add, seqZ_app, for_each_app by lia.
  rewrite (play_prefix data self pre (year :: suf) Hp Hl Hall).
  simpl length. rewrite seqZ_cons by lia. simpl for_each.
  destruct (after_frames_keeps data self pre) as (Hf & Hs & Hl' & Hp').
  unfold mbind, M_bind. rewrite Z.add_0_l.
  rewrite (frame_outcome data (pre ++ year :: suf) _ (length pre) year);
    [|by rewrite Hp'|by rewrite Hl'|by rewrite list_lookup_middle].
  rewrite Hyear, Hs, take_app_length. done.
Qed.

Lemma first_empty_year data period :
  Forall (λ year, active_stations year data ≠ []) period ∨
  ∃ pre year suf,
    period = pre ++ year :: suf ∧
    Forall (λ year, active_stations year data ≠ []) pre ∧
    active_stations year data = [].
Proof.
  induction period as [|y period IH]; [by left|].
  destruct (active_stations y data) as [|s act] eqn:Hy.
  - right. by exists [], y, period.
  - destruct IH as [IH|(pre & year & suf & -> & Hpre & Hyear)].
    + left. constructor; [by rewrite Hy|done].
    + right. exists (y :: pre), year, suf.
      split; [done|split; [|done]]. constructor; [by rewrite Hy|done].
Qed.

Lemma zero_count data period :
  0 ∈ count_stations data period
  ↔ ∃ year, year ∈ period ∧ active_stations year data = [].
Proof.
  rewrite count_stations_spec, list_elem_of_fmap. split.
  - intros (year & H0 & Hin). exists year. split; [done|].
    destruct (active_stations year data); [done|simpl in H0; lia].
  - intros (year & Hin & Hact). exists year. by rewrite Hact.
Qed.

Lemma play_init (m_start m_end : cell) (stations : list Z)
    (locations : gmap Z (ndarray coord)) period :
  SubplotAnimation.play
    (SubplotAnimation.__init__ m_start m_end stations locations period)
  = for_each (seqZ 0 (Z.of_nat (length period))) SubplotAnimation._draw_frame
      (SubplotAnimation.__init__ m_start m_end stations locations period).
Proof. done. Qed.

(** X13: played over a period all of whose years have an active station, the
    animation comes to its end showing the last year: its label and its
    point cloud, and the line through the years before it.  The count
    of the last year is never put on the line. *)
Theorem play_final_state (m_start m_end : cell) data pre year :
  Forall (λ year, active_stations year data ≠ []) (pre ++ [year]) →
  let period := pre ++ [year] in
  let self :=
    SubplotAnimation.__init__ m_start m_end (count_stations data period)
      (get_station_locations data period) period in
  SubplotAnimation.play self
  = (Ok (),
     SubplotAnimation.Self
       (SubplotAnimation.fig self)
       (count_stations data period)
       (get_station_locations data period)
       period
       (SubplotAnimation.Line pre (take (length pre) (count_stations data period)))
       (SubplotAnimation.Line (long <$> active_stations year data)
                              (lat <$> active_stations year data))
       (pretty year)
       [SubplotAnimation.Time; SubplotAnimation.Space; SubplotAnimation.Text]).
Proof.
  intros Hall period self. unfold self. rewrite play_init. fold self.
  rewrite (play_prefix data self period []);
    [|by rewrite app_nil_r..|done].
  unfold after_frames, period. rewrite last_snoc, length_app, Nat.add_1_r.
  simpl. subst period. by rewrite Nat.sub_0_r, take_app_length.
Qed.

(** X14: played over a period with a year in which no station is active, the
    animation stops in the frame of the first such year with
    [IndexError]: the frames before it have been drawn, the line has
    been moved on to the years before the empty one, and the point
    cloud and the label are still those of the year before it. *)
Theorem play_raises_at_first_empty_year (m_start m_end : cell)
    data pre year suf :
  Forall (λ year, active_stations year data ≠ []) pre →
  active_stations year data = [] →
  let period := pre ++ year :: suf in
  let self :=
    SubplotAnimation.__init__ m_start m_end (count_stations data period)
      (get_station_locations data period) period in
  SubplotAnimation.play self
  = (Raise IndexError,
     SubplotAnimation.time_set_data
       pre (take (length pre) (count_stations data period))
       (after_frames data self pre)).
Proof.
  intros Hall Hyear period self. subst self period. rewrite play_init.
  by apply play_stops.
Qed.

(** X15: the animation the script builds plays to its end exactly when no
    count is zero; otherwise playing it raises [IndexError]. *)
Theorem play_succeeds_iff (m_start m_end : cell) data period :
  let self :=
    SubplotAnimation.__init__ m_start m_end (count_stations data period)
      (get_station_locations data period) period in
  ((SubplotAnimation.play self).1 = Ok () ∧ 0 ∉ count_stations data period) ∨
  ((SubplotAnimation.play self).1 = Raise IndexError ∧
   0 ∈ count_stations data period).
Proof.
  intros self. unfold self. rewrite play_init. fold self.
  destruct (first_empty_year data period)
    as [Hall|(pre & year & suf & -> & Hall & Hyear)].
  - left. split.
    + assert (Hrun : for_each (seqZ 0 (Z.of_nat (length period)))
                              SubplotAnimation._draw_frame self
                     = (Ok (), after_frames data self period))
        by (apply (play_prefix data self period []);
              [by rewrite app_nil_r..|done]).
      by rewrite Hrun.
    + rewrite zero_count. intros (year & Hin & Hact).
      rewrite Forall_forall in Hall. by apply (Hall year Hin).
  - right. split.
    + assert (Hrun := play_stops data self pre year suf eq_refl eq_refl
                        Hall Hyear).
      by rewrite Hrun.
    + apply zero_count. exists year. split; [|done].
      apply elem_of_app. right. by left.
Qed.

(** A frame drawn from a state that differs only in the list of drawn
    artists: the same outcome, and the same state when it returns. *)
Lemma draw_frame_drawn (l : list SubplotAnimation.artist) (i : Z) self :
  SubplotAnimation._draw_frame i (SubplotAnimation.set_drawn_artists l self)
  = match SubplotAnimation._draw_frame i self with
    | (Ok u, self') => (Ok u, self')
    | (Raise e, self') => (Raise e, SubplotAnimation.set_drawn_artists l self')
    end.
Proof.
  run_frame.
  destruct (getitem _ i) as [year|e]; simpl; [|done].
  destruct (dict_getitem _ year) as [a|e]; simpl; [|done].
  by destruct a as [|rows].
Qed.

Lemma for_each_frames_keeps (frames : list Z) self :
  let self' := (for_each frames SubplotAnimation._draw_frame self).2 in
  SubplotAnimation.fig self' = SubplotAnimation.fig self ∧
  SubplotAnimation.stations self' = SubplotAnimation.stations self ∧
  SubplotAnimation.locations self' = SubplotAnimation.locations self ∧
  SubplotAnimation.period self' = SubplotAnimation.period self.
Proof.
  revert self. induction frames as [|i frames IH]; intros self; [done|].
  simpl. unfold mbind, M_bind.
  pose proof (draw_frame_keeps i self) as Hkeep. simpl in Hkeep.
  destruct (SubplotAnimation._draw_frame i self) as [[[]|e] self1]; [|done].
  simpl in Hkeep. destruct Hkeep as (<- & <- & <- & <-). apply IH.
Qed.

(** X16: playing the animation again (the script saves it and then shows it)
    goes through the same frames and ends as the first time, on the same
    exception or in the same state: the initial draw clears what the
    first run left and every frame overwrites the three drawables. *)
Theorem play_twice self :
  SubplotAnimation.play (SubplotAnimation.play self).2
  = SubplotAnimation.play self.
Proof.
  set (clear := λ self : SubplotAnimation.t coord,
         SubplotAnimation.text_set_text ""
           (SubplotAnimation.space_set_data [] []
              (SubplotAnimation.time_set_data [] [] self))).
  assert (Hplay : ∀ self,
            SubplotAnimation.play self
            = for_each (seqZ 0 (Z.of_nat (length (SubplotAnimation.period self))))
                SubplotAnimation._draw_frame (clear self)) by done.
  rewrite !Hplay.
  set (frames := seqZ 0 (Z.of_nat (length (SubplotAnimation.period self)))).
  pose proof (for_each_frames_keeps frames (clear self)) as Hkeep.
  destruct (for_each frames SubplotAnimation._draw_frame (clear self))
    as [r self'] eqn:Hrun.
  simpl in Hkeep. destruct Hkeep as (Hf & Hs & Hl & Hp).
  assert (Hclear : clear self'
                   = SubplotAnimation.set_drawn_artists
                       (SubplotAnimation._drawn_artists self') (clear self)).
  { unfold clear, SubplotAnimation.set_drawn_artists,
      SubplotAnimation.text_set_text, SubplotAnimation.space_set_data,
      SubplotAnimation.time_set_data. simpl.
    by rewrite Hf, Hs, Hl, Hp. }
  simpl. rewrite Hp, Hclear. fold frames.
  destruct frames as [|i frames].
  - injection Hrun as <- <-. done.
  - simpl in Hrun |- *. unfold mbind, M_bind in Hrun |- *.
    rewrite draw_frame_drawn.
    destruct (SubplotAnimation._draw_frame i (clear self)) as [[[]|e] self1];
      [done|].
    injection Hrun as <- <-. by destruct self1.
Qed.

(** X17: whatever happens while the animation is played, and whether it comes
    to its end or stops on an exception, the canvas, the counts, the
    locations and the period it was constructed with are left as they
    were: only the drawables, and the list of drawn artists, change. *)
Theorem play_keeps self :
  let self' := (SubplotAnimation.play self).2 in
  SubplotAnimation.fig self' = SubplotAnimation.fig self ∧
  SubplotAnimation.stations self' = SubplotAnimation.stations self ∧
  SubplotAnimation.locations self' = SubplotAnimation.locations self ∧
  SubplotAnimation.period self' = SubplotAnimation.period self.
Proof.
  exact (for_each_frames_keeps
           (seqZ 0 (Z.of_nat (length (SubplotAnimation.period self))))
           (SubplotAnimation.text_set_text ""
              (SubplotAnimation.space_set_data [] []
                 (SubplotAnimation.time_set_data [] [] self)))).
Qed.

(** X18: the script from the parsed table on has three outcomes.
    [ValueError], raised by the period derivation before anything is
    counted or drawn, exactly when a bound column has no value at all.
    Otherwise, with [lo] the least start year, [hi] the greatest end
    year and the period [lo .. hi - 1]: [IndexError], raised while the
    animation is saved, exactly when the count of some year of the
    period is zero; or a normal end, with the animation holding that
    period and the counts and locations of the table. *)
Theorem main_outcome data :
  ((Forall (λ s, m_start s = None) data ∨ Forall (λ s, m_end s = None) data) ∧
   main data = Raise ValueError)
  ∨
  (∃ lo hi,
     is_least lo (m_start <$> data) ∧
     is_greatest hi (m_end <$> data) ∧
     ((0 ∈ count_stations data (seqZ lo (hi - lo)) ∧
       main data = Raise IndexError)
      ∨
      ((0 ∉ count_stations data (seqZ lo (hi - lo))) ∧
       ∃ ani,
         main data = Ok ani ∧
         SubplotAnimation.period ani = seqZ lo (hi - lo) ∧
         SubplotAnimation.stations ani
           = count_stations data (seqZ lo (hi - lo)) ∧
         SubplotAnimation.locations ani
           = get_station_locations data (seqZ lo (hi - lo))))).
Proof.
  unfold main, get_data_period, np_arange.
  destruct (np_min (m_start <$> data)) as [lo|] eqn:Hlo.
  2:{ left. split; [|done]. left.
      apply np_min_None in Hlo. by apply Forall_fmap in Hlo. }
  destruct (np_max (m_end <$> data)) as [hi|] eqn:Hhi.
  2:{ left. split; [|done]. right.
      apply np_max_None in Hhi. by apply Forall_fmap in Hhi. }
  right. exists lo, hi.
  apply np_min_least in Hlo. apply np_max_greatest in Hhi.
  split; [done|split; [done|]].
  cbv zeta. rewrite play_init.
  set (period := seqZ lo (hi - lo)).
  set (self := SubplotAnimation.__init__ _ _ _ _ _).
  destruct (first_empty_year data period)
    as [Hall|(pre & year & suf & Hperiod & Hall & Hyear)].
  - right.
    assert (Hrun : for_each (seqZ 0 (Z.of_nat (length period)))
                            SubplotAnimation._draw_frame self
                   = (Ok (), after_frames data self period))
      by (apply (play_prefix data self period []);
            [by rewrite app_nil_r..|done]).
    rewrite Hrun. split.
    + rewrite zero_count. intros (year & Hin & Hact).
      rewrite Forall_forall in Hall. by apply (Hall year Hin).
    + eexists. split; [done|].
      by destruct (after_frames_keeps data self period) as (_ & -> & -> & ->).
  - left. split.
    + apply zero_count. exists year. split; [|done].
      rewrite Hperiod. apply elem_of_app. right. by left.
    + clearbody period. subst period.
      assert (Hrun := play_stops data self pre year suf eq_refl eq_refl
                        Hall Hyear).
      by rewrite Hrun.
Qed.

(** X19: when the greatest end year is not above the least start year (one
    station measured in a single year, say), nothing is raised: the
    period is empty, no frame is drawn and the script ends with the
    animation as it was constructed. *)
Theorem main_degenerate data lo hi :
  is_least lo (m_start <$> data) →
  is_greatest hi (m_end <$> data) →
  hi ≤ lo →
  main data = Ok (SubplotAnimation.__init__ (Some lo) (Some hi) [] ∅ []).
Proof.
  intros Hlo%np_min_least Hhi%np_max_greatest Hle.
  unfold main, get_data_period, np_arange. rewrite Hlo, Hhi.
  by rewrite seqZ_nil by lia.
Qed.

End MoreAnimation.

(** * Further properties of the scans over a store *)

Section MoreStore.
Context {coord : Type}.
Implicit Types (h : Store.heap coord) (rows : list (station coord)).

(** X20: the two scans one after the other, as the script calls them: both
    return, with two different new references; behind the first is the
    array of counts, which the second scan has not disturbed, and behind
    the second the dict of locations; both hold what the scans compute
    on the values of the table and the period, which are still in
    place. *)
Theorem aggregate_run h (data period : Store.loc) rows (p : list Z) :
  h !! data = Some (Store.DataFrame rows) →
  h !! period = Some (Store.IntArray p) →
  ∃ stations locations h',
    Store.aggregate data period h = (Ok (stations, locations), h') ∧
    stations ≠ locations ∧
    h !! stations = None ∧
    h !! locations = None ∧
    h' !! stations = Some (Store.IntArray (count_stations rows p)) ∧
    Store.deref_dict h' locations = Some (get_station_locations rows p) ∧
    h' !! data = Some (Store.DataFrame rows) ∧
    h' !! period = Some (Store.IntArray p).
Proof.
  intros Hd Hp. pose proof (fresh_lookup h) as Hl.
  set (l := fresh (dom h)) in *.
  set (h1 := <[l := Store.IntArray (count_stations rows p)]> h).
  assert (Hsub : h ⊆ h1) by (by apply insert_subseteq).
  assert (Hd1 : h1 !! data = Some (Store.DataFrame rows))
    by (by eapply lookup_weaken).
  assert (Hp1 : h1 !! period = Some (Store.IntArray p))
    by (by eapply lookup_weaken).
  destruct (get_station_locations_run h1 data period rows p Hd1 Hp1)
    as (h' & Hrun & Hsub' & Hderef).
  pose proof (fresh_lookup h1) as Hl1. set (l1 := fresh (dom h1)) in *.
  assert (Hl1' : h1 !! l = Some (Store.IntArray (count_stations rows p)))
    by apply lookup_insert_eq.
  exists l, l1, h'. unfold Store.aggregate.
  rewrite (bind_Ok _ _ _ _ _ (count_stations_run h data period rows p Hd Hp)).
  fold l h1. rewrite (bind_Ok _ _ _ _ _ Hrun).
  split; [done|]. split; [congruence|].
  split; [done|]. split; [by eapply lookup_weaken_None|].
  split; [by eapply lookup_weaken|]. split; [done|].
  split; by eapply lookup_weaken.
Qed.

End MoreStore.

(** ** Instances of the further conditional statements *)

Lemma count_stations_int_agrees_witness :
  0 < 32 ∧
  Z.of_nat (length (two_stations 50 10 48 2)) < 2 ^ (32 - 1) ∧
  count_stations_int 32 (two_stations 50 10 48 2) (seqZ 2000 10)
    = count_stations (two_stations 50 10 48 2) (seqZ 2000 10).
Proof.
  assert (H1 : 0 < 32) by lia.
  assert (H2 : Z.of_nat (length (two_stations 50 10 48 2)) < 2 ^ (32 - 1))
    by (vm_compute; reflexivity).
  split; [exact H1|split; [exact H2|]].
  exact (count_stations_int_agrees 32 (two_stations 50 10 48 2)
           (seqZ 2000 10) H1 H2).
Defined.

Lemma draw_frame_shows_year_witness :
  seqZ 2000 10 !! (4%nat) = Some 2004 ∧
  active_stations 2004 (two_stations 50 10 48 2) ≠ [] ∧
  (SubplotAnimation._draw_frame 4
     (SubplotAnimation.__init__ (Some 2000) (Some 2010)
        (count_stations (two_stations 50 10 48 2) (seqZ 2000 10))
        (get_station_locations (two_stations 50 10 48 2) (seqZ 2000 10))
        (seqZ 2000 10))).1 = Ok ().
Proof.
  assert (H1 : seqZ 2000 10 !! (4%nat) = Some 2004) by reflexivity.
  assert (H2 : active_stations 2004 (two_stations 50 10 48 2) ≠ [])
    by (vm_compute; discriminate).
  split; [exact H1|split; [exact H2|]].
  pose proof (draw_frame_shows_year (Some 2000) (Some 2010)
                (two_stations 50 10 48 2) (seqZ 2000 10) 4 2004 H1 H2) as H.
  simpl in H. change (Z.of_nat 4) with 4 in H. by rewrite H.
Defined.

Lemma draw_frame_raises_iff_zero_count_witness :
  let data := gap_stations 50 10 48 2 in
  let period := [2000; 2001; 2002; 2003; 2004; 2005] in
  let self :=
    SubplotAnimation.__init__ (Some 2000) (Some 2006)
      (count_stations data period) (get_station_locations data period) period in
  (2 < length period)%nat ∧
  ((SubplotAnimation._draw_frame 2 self).1 = Raise IndexError
   ↔ count_stations data period !! (2%nat) = Some 0).
Proof.
  intros data period self.
  assert (H : (2 < length period)%nat) by (simpl; lia).
  split; [exact H|].
  exact (proj1 (draw_frame_raises_iff_zero_count (Some 2000) (Some 2006)
                  data period 2 H)).
Defined.

Lemma draw_frame_overwrites_witness :
  let data := two_stations 50 10 48 2 in
  let period := seqZ 2000 10 in
  let self :=
    SubplotAnimation.__init__ (Some 2000) (Some 2010)
      (count_stations data period) (get_station_locations data period) period in
  (SubplotAnimation._draw_frame 4 self).1 = Ok () ∧
  SubplotAnimation._draw_frame 4 (SubplotAnimation._draw_frame 7 self).2
  = SubplotAnimation._draw_frame 4 self.
Proof.
  intros data period self.
  assert (H : (SubplotAnimation._draw_frame 4 self).1 = Ok ()) by reflexivity.
  split; [exact H|].
  exact (draw_frame_overwrites 4 7 self H).
Defined.

Lemma draw_frame_out_of_range_witness :
  let data := two_stations 50 10 48 2 in
  let period := seqZ 2000 10 in
  let self :=
    SubplotAnimation.__init__ (Some 2000) (Some 2010)
      (count_stations data period) (get_station_locations data period) period in
  Z.of_nat (length (SubplotAnimation.period self)) ≤ 10 ∧
  SubplotAnimation._draw_frame 10 self
  = (Raise IndexError,
     SubplotAnimation.time_set_data
       (SubplotAnimation.period self)
       (slice_to 10 (SubplotAnimation.stations self)) self).
Proof.
  intros data period self.
  assert (H : Z.of_nat (length (SubplotAnimation.period self)) ≤ 10)
    by (vm_compute; discriminate).
  split; [exact H|].
  exact (draw_frame_out_of_range 10 self H).
Defined.

Lemma draw_frame_missing_key_witness :
  let data := two_stations 50 10 48 2 in
  let self :=
    SubplotAnimation.__init__ (Some 2000) (Some 2010)
      (count_stations data [2000]) (get_station_locations data [2001]) [2000] in
  getitem (SubplotAnimation.period self) 0 = Ok 2000 ∧
  SubplotAnimation.locations self !! 2000 = None ∧
  (SubplotAnimation._draw_frame 0 self).1 = Raise KeyError.
Proof.
  intros data self.
  assert (H1 : getitem (SubplotAnimation.period self) 0 = Ok 2000)
    by reflexivity.
  assert (H2 : SubplotAnimation.locations self !! 2000 = None) by reflexivity.
  split; [exact H1|split; [exact H2|]].
  by rewrite (draw_frame_missing_key 0 self 2000 H1 H2).
Defined.

Lemma play_final_state_witness :
  let data := two_stations 50 10 48 2 in
  let pre := [2000; 2001; 2002; 2003; 2004; 2005; 2006; 2007; 2008] in
  Forall (λ year, active_stations year data ≠ []) (pre ++ [2009]) ∧
  let period := pre ++ [2009] in
  let self :=
    SubplotAnimation.__init__ (Some 2000) (Some 2010)
      (count_stations data period) (get_station_locations data period) period in
  SubplotAnimation.play self
  = (Ok (),
     SubplotAnimation.Self
       (SubplotAnimation.fig self)
       (count_stations data period)
       (get_station_locations data period)
       period
       (SubplotAnimation.Line pre (take (length pre) (count_stations data period)))
       (SubplotAnimation.Line (long <$> active_stations 2009 data)
                              (lat <$> active_stations 2009 data))
       (pretty 2009)
       [SubplotAnimation.Time; SubplotAnimation.Space; SubplotAnimation.Text]).
Proof.
  intros data pre.
  assert (H : Forall (λ year, active_stations year data ≠ []) (pre ++ [2009]))
    by (simpl; repeat (constructor; [vm_compute; discriminate|]); constructor).
  split; [exact H|].
  exact (play_final_state (Some 2000) (Some 2010) data pre 2009 H).
Defined.

Lemma play_raises_at_first_empty_year_witness :
  let data := gap_stations 50 10 48 2 in
  let self :=
    SubplotAnimation.__init__ (Some 2000) (Some 2006)
      (count_stations data [2000; 2001; 2002; 2003; 2004; 2005])
      (get_station_locations data [2000; 2001; 2002; 2003; 2004; 2005])
      [2000; 2001; 2002; 2003; 2004; 2005] in
  Forall (λ year, active_stations year data ≠ []) [2000; 2001] ∧
  active_stations 2002 data = [] ∧
  (SubplotAnimation.play self).1 = Raise IndexError.
Proof.
  intros data self.
  assert (H1 : Forall (λ year, active_stations year data ≠ []) [2000; 2001])
    by (repeat (constructor; [vm_compute; discriminate|]); constructor).
  assert (H2 : active_stations 2002 data = []) by reflexivity.
  split; [exact H1|split; [exact H2|]].
  pose proof (play_raises_at_first_empty_year (Some 2000) (Some 2006) data
                [2000; 2001] 2002 [2003; 2004; 2005] H1 H2) as Hrun.
  simpl in Hrun. unfold self. by rewrite Hrun.
Defined.

Lemma main_degenerate_witness :
  let data := [Station 50 10 (Some 2000) (Some 2000)] in
  is_least 2000 (m_start <$> data) ∧
  is_greatest 2000 (m_end <$> data) ∧
  2000 ≤ 2000 ∧
  main data = Ok (SubplotAnimation.__init__ (Some 2000) (Some 2000) [] ∅ []).
Proof.
  intros data.
  assert (H1 : is_least 2000 (m_start <$> data))
    by (apply np_min_least; reflexivity).
  assert (H2 : is_greatest 2000 (m_end <$> data))
    by (apply np_max_greatest; reflexivity).
  assert (H3 : 2000 ≤ 2000) by lia.
  split; [exact H1|split; [exact H2|split; [exact H3|]]].
  exact (main_degenerate data 2000 2000 H1 H2 H3).
Defined.

Lemma aggregate_run_witness :
  two_stations_store !! 1%positive
    = Some (Store.DataFrame (two_stations 50 10 48 2)) ∧
  two_stations_store !! 2%positive = Some (Store.IntArray (seqZ 2000 10)) ∧
  ∃ stations locations h',
    Store.aggregate 1%positive 2%positive two_stations_store
      = (Ok (stations, locations), h') ∧
    stations ≠ locations ∧
    two_stations_store !! stations = None ∧
    two_stations_store !! locations = None ∧
    h' !! stations
      = Some (Store.IntArray
                (count_stations (two_stations 50 10 48 2) (seqZ 2000 10))) ∧
    Store.deref_dict h' locations
      = Some (get_station_locations (two_stations 50 10 48 2) (seqZ 2000 10)) ∧
    h' !! 1%positive = Some (Store.DataFrame (two_stations 50 10 48 2)) ∧
    h' !! 2%positive = Some (Store.IntArray (seqZ 2000 10)).
Proof.
  assert (H1 : two_stations_store !! 1%positive
               = Some (Store.DataFrame (two_stations 50 10 48 2)))
    by reflexivity.
  assert (H2 : two_stations_store !! 2%positive
               = Some (Store.IntArray (seqZ 2000 10))) by reflexivity.
  split; [exact H1|split; [exact H2|]].
  exact (aggregate_run two_stations_store 1%positive 2%positive
           (two_stations 50 10 48 2) (seqZ 2000 10) H1 H2).
Defined.

Lemma period_misses_only_last_year_witness :
  let data := two_stations 50 10 48 2 in
  let s := Station 48 2 (Some 2003) (Some 2010) in
  get_data_period data = Ok (Some 2000, Some 2010, seqZ 2000 10) ∧
  s ∈ data ∧
  in_range 2010 s ∧
  ((2010 ∈ seqZ 2000 10 ∧ 2010 < 2010) ∨
   (2010 = 2010 ∧ 2010 ∉ seqZ 2000 10)).
Proof.
  intros data s.
  assert (H1 : get_data_period data = Ok (Some 2000, Some 2010, seqZ 2000 10))
    by reflexivity.
  assert (H2 : s ∈ data) by (right; left).
  assert (H3 : in_range 2010 s) by (apply active_in_range; reflexivity).
  split; [exact H1|split; [exact H2|split; [exact H3|]]].
  exact (period_misses_only_last_year data (Some 2000) 2010 (seqZ 2000 10)
           s 2010 H1 H2 H3).
Defined.
